(** * The Li-battery furnace-temperature baseline (baselineV2.ipynb)

    A shallow embedding of the notebook: the calendar features that
    [time_feature] derives, the pandas frames it works on (kept in a store of
    objects, because pandas assigns columns in place), the hold-out split of
    scikit-learn, the LightGBM training call, and the per-label loop.

    The notebook is glue around three libraries.  Each library function it
    calls is embedded next to the name it has in the library, restricted to
    the arguments the notebook passes; what the libraries leave to the
    environment (the pseudo-random generator, the date parser, the tree
    learner) is an interface, a type class whose instance the theorems
    quantify over. *)

From Stdlib Require Import ZArith QArith Qround Qabs Ascii String.
From stdpp Require Import base option list gmap strings pretty.

#[local] Open Scope string_scope.
#[local] Open Scope Z_scope.

(** ** Calendar arithmetic of pandas (pandas/_libs/tslibs/ccalendar.pyx) *)

Module Calendar.

Record Timestamp : Type := mkTimestamp
  { year : Z; month : Z; day : Z; hour : Z; minute : Z; second : Z }.

Definition is_leap_year (y : Z) : bool :=
  ((y mod 4 =? 0) && negb (y mod 100 =? 0)) || (y mod 400 =? 0).

(** Days before the first of each month, common year then leap year. *)
Definition month_offset : list Z :=
  [0; 31; 59; 90; 120; 151; 181; 212; 243; 273; 304; 334; 365;
   0; 31; 60; 91; 121; 152; 182; 213; 244; 274; 305; 335; 366].

Definition em : list Z :=
  [0; 0; 31; 59; 90; 120; 151; 181; 212; 243; 273; 304; 334].

Definition get_day_of_year (y m d : Z) : Z :=
  let isleap := if is_leap_year y then 1 else 0 in
  default 0 (month_offset !! Z.to_nat (isleap * 13 + m - 1)) + d.

(** Monday is 0 and Sunday is 6. *)
Definition dayofweek (y m d : Z) : Z :=
  let y := if m <? 3 then y - 1 else y in
  let c := y / 100 in
  let g := y - c * 100 in
  let f := 5 * (c mod 4) in
  let e := default 0 (em !! Z.to_nat m) in
  let e := if 2 <? m then e - 1 else e in
  (-1 + d + e + f + g + g / 4) mod 7.

(** The week of [get_iso_calendar]: estimate from the day of the year,
    then repair the first and last days of the year. *)
Definition get_week_of_year (y m d : Z) : Z :=
  let doy := get_day_of_year y m d in
  let dow := dayofweek y m d in
  let iso_week := (doy - 1) - dow + 3 in
  let iso_week := if 0 <=? iso_week then iso_week / 7 + 1 else iso_week in
  if iso_week <? 0 then
    if (-2 <? iso_week) || ((iso_week =? -2) && is_leap_year (y - 1))
    then 53 else 52
  else if iso_week =? 53 then
    if 31 - d + dow <? 3 then 1 else iso_week
  else iso_week.

End Calendar.

(** ** Cell values, exceptions and results *)

Inductive Value : Type :=
| VStr (s : string)
| VInt (n : Z)
| VFloat (q : Q)
| VTime (t : Calendar.Timestamp)
| VNaN
| VNaT.

Inductive Error : Type :=
| KeyError (labels : list string)
| DateParseError (v : Value)
| AttributeError (msg : string)
| TypeError (msg : string)
| ValueError (msg : string)
| IndexError (position : nat)
| LightGBMError (msg : string)
| DanglingReference.

Inductive Result (A : Type) : Type :=
| Ok (a : A)
| Raise (e : Error).
Arguments Ok {A} a.
Arguments Raise {A} e.

#[global] Instance Result_ret : MRet Result := fun A a => Ok a.
#[global] Instance Result_bind : MBind Result := fun A B f r =>
  match r with
  | Ok a => f a
  | Raise e => Raise e
  end.

Fixpoint traverse {A B : Type} (f : A -> Result B) (l : list A) : Result (list B) :=
  match l with
  | [] => Ok []
  | x :: r =>
      match f x with
      | Ok y => match traverse f r with
                | Ok ys => Ok (y :: ys)
                | Raise e => Raise e
                end
      | Raise e => Raise e
      end
  end.

(** ** pandas: series, frames and the store of objects *)

(** What [pd.to_datetime] makes of one cell that is neither missing nor a
    timestamp already, under the format in force for the column (recent
    pandas infers it from the first cell): the conversion is a parameter of
    the development. *)
Class DatetimeParser : Type :=
  parse_datetime : Value -> option Calendar.Timestamp.

Module Pandas.

Record Series : Type := mkSeries
  { s_index : list Z; s_values : list Value }.

(** A frame is its row labels and its named columns, in insertion order. *)
Record DataFrame : Type := mkDataFrame
  { index : list Z; columns : list (string * list Value) }.

Definition column_names (df : DataFrame) : list string := (columns df).*1.
Definition nrows (df : DataFrame) : nat := length (index df).
Definition ncols (df : DataFrame) : nat := length (columns df).

(** The invariant pandas keeps on every frame that was read from a file:
    column names are unique and every column has one cell per row. *)
Definition rectangular (df : DataFrame) : Prop :=
  Forall (fun c => length c.2 = nrows df) (columns df).

Definition wf (df : DataFrame) : Prop :=
  NoDup (column_names df) /\ rectangular df.

Fixpoint lookup_column (k : string) (cols : list (string * list Value))
  : option (list Value) :=
  match cols with
  | [] => None
  | (k', vs) :: r => if decide (k = k') then Some vs else lookup_column k r
  end.

Fixpoint replace_column (k : string) (vs : list Value)
    (cols : list (string * list Value)) : list (string * list Value) :=
  match cols with
  | [] => []
  | (k', vs') :: r =>
      if decide (k = k') then (k, vs) :: r
      else (k', vs') :: replace_column k vs r
  end.

(** A column assigned under an existing name replaces it where it
    stands; under a new name it goes last. *)
Definition upsert (k : string) (vs : list Value)
    (cols : list (string * list Value)) : list (string * list Value) :=
  if decide (k ∈ cols.*1) then replace_column k vs cols
  else cols ++ [(k, vs)].

(** [df[k]] *)
Definition get_column (df : DataFrame) (k : string) : Result Series :=
  match lookup_column k (columns df) with
  | Some vs => Ok (mkSeries (index df) vs)
  | None => Raise (KeyError [k])
  end.

(** [df.drop(columns=labels)]: every label must name a column. *)
Definition drop_columns (df : DataFrame) (labels : list string)
  : Result DataFrame :=
  match filter (fun k => k ∉ column_names df) labels with
  | [] => Ok (mkDataFrame (index df)
                (filter (fun c => c.1 ∉ labels) (columns df)))
  | missing => Raise (KeyError missing)
  end.

(** Position of the first row labelled [i]. *)
Fixpoint label_position (i : Z) (idx : list Z) : option nat :=
  match idx with
  | [] => None
  | j :: r => if decide (i = j) then Some 0%nat else S <$> label_position i r
  end.

(** Assigning a series aligns it on the row labels of the frame; a series
    that carries the frame's own index is taken as it is. *)
Definition align (idx : list Z) (s : Series) : list Value :=
  if decide (s_index s = idx) then s_values s
  else (fun i => default VNaN (p ← label_position i (s_index s);
                               s_values s !! p)) <$> idx.

(** [df[k] = s] on the frame value.  A frame without rows first takes
    the index of the series. *)
Definition set_column (df : DataFrame) (k : string) (s : Series)
  : DataFrame :=
  let df :=
    match index df, s_values s with
    | [], _ :: _ =>
        mkDataFrame (s_index s)
          (prod_map id (fun _ => replicate (length (s_index s)) VNaN)
             <$> columns df)
    | _, _ => df
    end in
  mkDataFrame (index df) (upsert k (align (index df) s) (columns df)).

(** [df[k] = array]: no alignment, the length must match. *)
Definition set_column_array (df : DataFrame) (k : string) (vs : list Value)
  : Result DataFrame :=
  if decide (length vs = nrows df) then
    Ok (mkDataFrame (index df) (upsert k vs (columns df)))
  else Raise (ValueError "Length of values does not match length of index").

(** Positional row selection, [df.iloc[positions]]. *)
Definition take_positions {A : Type} (l : list A) (positions : list nat)
  : Result (list A) :=
  traverse (fun p => match l !! p with
                     | Some x => Ok x
                     | None => Raise (IndexError p)
                     end) positions.

Definition iloc (df : DataFrame) (positions : list nat) : Result DataFrame :=
  idx ← take_positions (index df) positions;
  cols ← traverse (fun c => vs ← take_positions c.2 positions; Ok (c.1, vs))
           (columns df);
  Ok (mkDataFrame idx cols).

(** The row at a position: its label and its cells, column by column. *)
Definition row (df : DataFrame) (i : nat) : option (Z * list Value) :=
  label ← index df !! i;
  cells ← mapM (fun c => c.2 !! i) (columns df);
  Some (label, cells).

(** *** Series operations *)

Definition map_values (f : Value -> Result Value) (s : Series)
  : Result Series :=
  vs ← traverse f (s_values s); Ok (mkSeries (s_index s) vs).

Definition to_datetime_scalar {parser : DatetimeParser} (v : Value) : Result Value :=
  match v with
  | VTime t => Ok (VTime t)
  | VNaN | VNaT => Ok VNaT
  | _ => match parse_datetime v with
         | Some t => Ok (VTime t)
         | None => Raise (DateParseError v)
         end
  end.

(** The cells that [pd.to_datetime] rejects. *)
Definition unparseable {parser : DatetimeParser} (v : Value) : Prop :=
  match v with
  | VTime _ | VNaN | VNaT => False
  | _ => parse_datetime v = None
  end.

(** [pd.to_datetime(s)] with the default [errors='raise']. *)
Definition to_datetime {parser : DatetimeParser} : Series -> Result Series :=
  map_values to_datetime_scalar.

(** [s.dt.<field>]: a missing timestamp gives a missing number. *)
Definition dt_field (f : Calendar.Timestamp -> Z) (v : Value) : Result Value :=
  match v with
  | VTime t => Ok (VInt (f t))
  | VNaT => Ok VNaN
  | _ => Raise (AttributeError
                  "Can only use .dt accessor with datetimelike values")
  end.

Definition ts_dayofyear (t : Calendar.Timestamp) : Z :=
  Calendar.get_day_of_year (Calendar.year t) (Calendar.month t) (Calendar.day t).
Definition ts_dayofweek (t : Calendar.Timestamp) : Z :=
  Calendar.dayofweek (Calendar.year t) (Calendar.month t) (Calendar.day t).
Definition ts_week (t : Calendar.Timestamp) : Z :=
  Calendar.get_week_of_year (Calendar.year t) (Calendar.month t) (Calendar.day t).

Definition dt_month : Series -> Result Series := map_values (dt_field Calendar.month).
Definition dt_day : Series -> Result Series := map_values (dt_field Calendar.day).
Definition dt_hour : Series -> Result Series := map_values (dt_field Calendar.hour).
Definition dt_minute : Series -> Result Series := map_values (dt_field Calendar.minute).
Definition dt_dayofyear : Series -> Result Series := map_values (dt_field ts_dayofyear).
Definition dt_dayofweek : Series -> Result Series := map_values (dt_field ts_dayofweek).

(** [s.dt.isocalendar().week.astype(int)]: the week column is a nullable
    integer, and a missing week cannot be cast to [int]. *)
Definition dt_isocalendar_week_astype_int : Series -> Result Series :=
  map_values (fun v =>
    match v with
    | VTime t => Ok (VInt (ts_week t))
    | VNaT => Raise (ValueError "cannot convert NA to integer")
    | _ => Raise (AttributeError
                    "Can only use .dt accessor with datetimelike values")
    end).

(** [s // d] for an integer [d]: floor division, cell by cell. *)
Definition floordiv (d : Z) : Series -> Result Series :=
  map_values (fun v =>
    match v with
    | VInt n => Ok (VInt (n / d))
    | VFloat q => Ok (VFloat (inject_Z (Qfloor (q / inject_Z d))))
    | VNaN => Ok VNaN
    | _ => Raise (TypeError "unsupported operand type(s) for //")
    end).

(** *** The store

    Python variables hold references.  [df[k] = s] changes the object
    that [df] refers to, whereas [df.copy()] and [df.drop(...)] build a new object. *)

Definition loc : Type := positive.

Record World (G : Type) : Type := mkWorld
  { heap : gmap loc DataFrame; global_rng : G }.
Arguments mkWorld {G} heap global_rng.
Arguments heap {G} w.
Arguments global_rng {G} w.

Definition M (G A : Type) : Type := World G -> Result (A * World G).

#[global] Instance M_ret {G} : MRet (M G) := fun A a w => Ok (a, w).
#[global] Instance M_bind {G} : MBind (M G) := fun A B f c w =>
  match c w with
  | Ok (a, w') => f a w'
  | Raise e => Raise e
  end.

Section Store.
Context {G : Type}.

Definition lift {A : Type} (r : Result A) : M G A := fun w =>
  match r with
  | Ok a => Ok (a, w)
  | Raise e => Raise e
  end.

Definition alloc (df : DataFrame) : M G loc := fun w =>
  let l := fresh (dom (heap w)) in
  Ok (l, mkWorld (<[l := df]> (heap w)) (global_rng w)).

Definition read (l : loc) : M G DataFrame := fun w =>
  match heap w !! l with
  | Some df => Ok (df, w)
  | None => Raise DanglingReference
  end.

Definition write (l : loc) (df : DataFrame) : M G unit := fun w =>
  match heap w !! l with
  | Some _ => Ok (tt, mkWorld (<[l := df]> (heap w)) (global_rng w))
  | None => Raise DanglingReference
  end.

(** [data.copy()] *)
Definition DataFrame_copy (data : loc) : M G loc :=
  df ← read data; alloc df.

(** [data.drop(columns=labels)] *)
Definition DataFrame_drop (data : loc) (labels : list string) : M G loc :=
  df ← read data; df' ← lift (drop_columns df labels); alloc df'.

(** [data[k]] *)
Definition DataFrame_getitem (data : loc) (k : string) : M G Series :=
  df ← read data; lift (get_column df k).

(** [data[k] = s] *)
Definition DataFrame_setitem (data : loc) (k : string) (s : Series) : M G unit :=
  df ← read data; write data (set_column df k s).

(** [data[k] = array] *)
Definition DataFrame_setitem_array (data : loc) (k : string) (vs : list Value)
  : M G unit :=
  df ← read data; df' ← lift (set_column_array df k vs); write data df'.

(** [w'] has every object of [w], unchanged, and the same generator. *)
Definition preserves (w w' : World G) : Prop :=
  global_rng w' = global_rng w /\
  forall l df, heap w !! l = Some df -> heap w' !! l = Some df.

End Store.

End Pandas.

(** ** scikit-learn: the hold-out split *)

(** numpy's [RandomState]: seeding, and [permutation(n)], which returns a
    shuffled [range(n)] and advances the generator. *)
Class RandomState : Type := mkRandomState
  { rng_state : Type;
    RandomState_seed : Z -> rng_state;
    permutation : nat -> rng_state -> list nat * rng_state;
    permutation_Permutation :
      forall n g, (permutation n g).1 ≡ₚ seq 0 n }.

Module Sklearn.
Import Pandas.

(** Python's [round]: to the nearest integer, a tie to the even one.  The
    specification sizes the validation part with it. *)
Definition round_half_even (q : Q) : Z :=
  let f := Qfloor q in
  let r := (q - inject_Z f)%Q in
  match (r ?= 1 # 2)%Q with
  | Lt => f
  | Gt => f + 1
  | Eq => if Z.even f then f else f + 1
  end.

(** [_validate_shuffle_split(n_samples, test_size, train_size=None)] for a
    float [test_size].  The product is exact here; in binary64,
    [0.2 * n] rounds to the same integer part, below [2^50] rows. *)
Definition _validate_shuffle_split (n_samples : nat) (test_size : Q)
  : Result (nat * nat) :=
  if Qle_bool test_size 0 || Qle_bool 1 test_size then
    Raise (ValueError "test_size should be a float in the (0, 1) range")
  else
    let n_test :=
      Z.to_nat (Qceiling (test_size * inject_Z (Z.of_nat n_samples))) in
    let n_train := (n_samples - n_test)%nat in
    if decide (n_train = 0%nat) then
      Raise (ValueError "the resulting train set will be empty")
    else Ok (n_train, n_test).

Section Split.
Context {rng : RandomState}.

(** [check_random_state(seed).permutation(n)] on a generator state:
    without a seed the process-wide generator of numpy is used and
    advanced; an integer seed builds a generator of its own and leaves the
    process-wide one alone. *)
Definition drawn_permutation (random_state : option Z) (n : nat)
    (g : rng_state) : list nat * rng_state :=
  match random_state with
  | None => permutation n g
  | Some seed => ((permutation n (RandomState_seed seed)).1, g)
  end.

Definition draw_permutation (random_state : option Z) (n : nat)
  : M rng_state (list nat) := fun w =>
  let '(p, g) := drawn_permutation random_state n (global_rng w) in
  Ok (p, mkWorld (heap w) g).

(** The index arrays of [ShuffleSplit._iter_indices]. *)
Definition ind_test (n_test : nat) (p : list nat) : list nat :=
  take n_test p.
Definition ind_train (n_train n_test : nat) (p : list nat) : list nat :=
  take n_train (drop n_test p).

(** The two frames of a split of [df] along the permutation [p]. *)
Definition split_frames (df : DataFrame) (test_size : Q) (p : list nat)
  : Result (DataFrame * DataFrame) :=
  '(n_train, n_test) ← _validate_shuffle_split (nrows df) test_size;
  train ← iloc df (ind_train n_train n_test p);
  test ← iloc df (ind_test n_test p);
  Ok (train, test).

(** [train_test_split(data, test_size=test_size,
    random_state=random_state)], returning [(train, test)]. *)
Definition train_test_split (data : loc) (test_size : Q)
    (random_state : option Z) : M rng_state (loc * loc) :=
  df ← read data;
  '(n_train, n_test) ← lift (_validate_shuffle_split (nrows df) test_size);
  p ← draw_permutation random_state (nrows df);
  train ← lift (iloc df (ind_train n_train n_test p));
  test ← lift (iloc df (ind_test n_test p));
  train ← alloc train;
  test ← alloc test;
  mret (train, test).

End Split.

(** [mean_absolute_error(y_true, y_pred)] *)
Definition mean_absolute_error (y_true y_pred : list Q) : Result Q :=
  if decide (length y_true = length y_pred) then
    match y_true with
    | [] => Raise (ValueError "Found array with 0 sample(s)")
    | _ =>
        Ok (foldr Qplus 0%Q (zip_with (fun a b => Qabs (a - b)%Q) y_true y_pred)
            / inject_Z (Z.of_nat (length y_true)))%Q
    end
  else Raise (ValueError "Found input variables with inconsistent numbers of samples").

End Sklearn.

(** ** LightGBM: parameters, the training loop, prediction *)

Module LightGBM.
Import Pandas.

Inductive ParamValue : Type :=
| PStr (s : string)
| PInt (n : Z)
| PFloat (q : Q).

(** Alias table of the parameters the notebook could mean
    (docs/Parameters.rst): alias, then the name LightGBM reads. *)
Definition aliases : list (string * string) :=
  [ ("boosting_type", "boosting"); ("boost", "boosting");
    ("objective_type", "objective"); ("app", "objective");
    ("application", "objective"); ("loss", "objective");
    ("metrics", "metric"); ("metric_types", "metric");
    ("num_leaf", "num_leaves"); ("max_leaves", "num_leaves");
    ("max_leaf", "num_leaves"); ("max_leaf_nodes", "num_leaves");
    ("min_data_per_leaf", "min_data_in_leaf"); ("min_data", "min_data_in_leaf");
    ("min_child_samples", "min_data_in_leaf");
    ("min_samples_leaf", "min_data_in_leaf");
    ("min_sum_hessian_per_leaf", "min_sum_hessian_in_leaf");
    ("min_sum_hessian", "min_sum_hessian_in_leaf");
    ("min_hessian", "min_sum_hessian_in_leaf");
    ("min_child_weight", "min_sum_hessian_in_leaf");
    ("reg_lambda", "lambda_l2"); ("lambda", "lambda_l2");
    ("l2_regularization", "lambda_l2");
    ("sub_feature", "feature_fraction"); ("colsample_bytree", "feature_fraction");
    ("sub_row", "bagging_fraction"); ("subsample", "bagging_fraction");
    ("bagging", "bagging_fraction");
    ("subsample_freq", "bagging_freq");
    ("shrinkage_rate", "learning_rate"); ("eta", "learning_rate");
    ("random_seed", "seed"); ("random_state", "seed");
    ("num_thread", "num_threads"); ("nthread", "num_threads");
    ("nthreads", "num_threads"); ("n_jobs", "num_threads");
    ("verbose", "verbosity") ].

Definition canonical (k : string) : string :=
  default k (list_to_map (M := gmap string string) aliases !! k).

Definition default_config : gmap string ParamValue :=
  list_to_map
    [ ("boosting", PStr "gbdt"); ("objective", PStr "regression");
      ("metric", PStr "");
      ("num_leaves", PInt 31); ("min_data_in_leaf", PInt 20);
      ("min_sum_hessian_in_leaf", PFloat (1 # 1000));
      ("lambda_l2", PFloat 0); ("feature_fraction", PFloat 1);
      ("bagging_fraction", PFloat 1); ("bagging_freq", PInt 0);
      ("learning_rate", PFloat (1 # 10));
      ("num_threads", PInt 0); ("verbosity", PInt 1) ].

(** The configuration a parameter dictionary stands for: defaults,
    overridden by each entry under the name its key is an alias of. *)
Definition resolve (params : list (string * ParamValue))
  : gmap string ParamValue :=
  foldl (fun c kv => <[canonical kv.1 := kv.2]> c) default_config params.

(** The tree learner.  It may refuse a training set under a configuration
    with a [LightGBMError] (too few rows to bag, no usable feature, ...);
    one boosting round grows a tree from the constructed training set and
    the trees so far, or finds no leaf to split; a tree gives one output
    per row. *)
Class Learner : Type := mkLearner
  { Tree : Type;
    refuses : gmap string ParamValue -> DataFrame -> list Q -> option string;
    grow : gmap string ParamValue -> DataFrame -> list Q -> list Tree
           -> option Tree;
    tree_output : Tree -> DataFrame -> list Q }.

(** [lgb.Dataset(data, label=label)] keeps a reference to the frame. *)
Record Dataset : Type := mkDataset { ds_data : loc; ds_label : Series }.

Inductive Callback : Type :=
| log_evaluation (period : Z)
| early_stopping (stopping_rounds : nat).

(** [EarlyStopException(best_iteration, _)] or the callback's new state,
    the best score so far and its round. *)
Inductive Signal : Type :=
| Continue (st : option (Q * nat))
| EarlyStopException (best_iter : nat).

Definition run_callback (cb : Callback) (st : option (Q * nat))
    (iteration end_iteration : nat) (score : Q) : Signal :=
  match cb with
  | log_evaluation _ => Continue st
  | early_stopping stopping_rounds =>
      let '(best_score, best_iter) :=
        match st with
        | None => (score, iteration)
        | Some (best_score, best_iter) =>
            if negb (Qle_bool best_score score) then (score, iteration)
            else (best_score, best_iter)
        end in
      if decide (stopping_rounds <= iteration - best_iter)%nat
      then EarlyStopException best_iter
      else if decide (iteration = end_iteration - 1)%nat
      then EarlyStopException best_iter
      else Continue (Some (best_score, best_iter))
  end.

Fixpoint run_callbacks (cbs : list (Callback * option (Q * nat)))
    (iteration end_iteration : nat) (score : Q)
  : list (Callback * option (Q * nat)) + nat :=
  match cbs with
  | [] => inl []
  | (cb, st) :: r =>
      match run_callback cb st iteration end_iteration score with
      | EarlyStopException best_iter => inr best_iter
      | Continue st' =>
          match run_callbacks r iteration end_iteration score with
          | inl r' => inl ((cb, st') :: r')
          | inr best_iter => inr best_iter
          end
      end
  end.

Definition numeric (v : Value) : Result Q :=
  match v with
  | VInt n => Ok (inject_Z n)
  | VFloat q => Ok q
  | _ => Raise (ValueError "could not convert label to float")
  end.

Section Train.
Context {learner : Learner} {G : Type}.

(** The booster remembers the data sets it was constructed with. *)
Record Booster : Type := mkBooster
  { trees : list Tree;
    best_iteration : Z;
    train_data : DataFrame;
    train_label : Series;
    valid_data : DataFrame;
    valid_label : Series }.

Definition raw_predict (ts : list Tree) (X : DataFrame) : list Q :=
  foldl (fun acc t => zip_with Qplus acc (tree_output t X))
    (replicate (nrows X) 0%Q) ts.

Definition l1 (ts : list Tree) (X : DataFrame) (y : list Q) : Result Q :=
  Sklearn.mean_absolute_error y (raw_predict ts X).

(** The loop of [engine.train]: update, evaluate on the validation set,
    run the callbacks.  [best_iteration] starts at 0 and is assigned
    only when a callback raises [EarlyStopException]. *)
Fixpoint boosting_loop (params : gmap string ParamValue)
    (X : DataFrame) (y : list Q) (Xv : DataFrame) (yv : list Q)
    (end_iteration remaining : nat)
    (ts : list Tree) (cbs : list (Callback * option (Q * nat)))
  : Result (list Tree * Z) :=
  match remaining with
  | O => Ok (ts, 0)
  | S r =>
      let ts := match grow params X y ts with
                | Some t => (ts ++ [t])%list
                | None => ts
                end in
      score ← l1 ts Xv yv;
      match run_callbacks cbs (end_iteration - remaining) end_iteration score with
      | inl cbs' => boosting_loop params X y Xv yv end_iteration r ts cbs'
      | inr best_iter => Ok (ts, Z.of_nat best_iter + 1)
      end
  end.

(** The trees of the booster that [train] returns.  With the default
    [keep_training_booster=False] the booster is reloaded from its model
    string, which holds the trees up to [best_iteration] when there is one
    and all of them otherwise. *)
Definition kept_trees (ts : list Tree) (best : Z) : list Tree :=
  if 0 <? best then take (Z.to_nat best) ts else ts.

(** [lgb.train(params, train_set, num_boost_round,
    valid_sets=valid_sets, callbacks=callbacks)] *)
Definition train (params : list (string * ParamValue)) (train_set : Dataset)
    (num_boost_round : nat) (valid_sets : Dataset)
    (callbacks : list Callback) : M G Booster :=
  X ← read (ds_data train_set);
  y ← lift (traverse numeric (s_values (ds_label train_set)));
  lift (match refuses (resolve params) X y with
        | Some msg => Raise (LightGBMError msg)
        | None => Ok tt
        end);;
  Xv ← read (ds_data valid_sets);
  yv ← lift (traverse numeric (s_values (ds_label valid_sets)));
  '(ts, best) ← lift (boosting_loop (resolve params) X y Xv yv
                        num_boost_round num_boost_round []
                        ((fun cb => (cb, None)) <$> callbacks));
  mret (mkBooster (kept_trees ts best) best
          X (ds_label train_set) Xv (ds_label valid_sets)).

(** How many trees [predict] uses: all of them when [num_iteration] is
    not positive. *)
Definition num_iteration_for_pred (model : Booster) (num_iteration : Z)
  : nat :=
  if num_iteration <=? 0 then length (trees model)
  else Nat.min (Z.to_nat num_iteration) (length (trees model)).

(** [model.predict(data, num_iteration=num_iteration)] *)
Definition predict (model : Booster) (data : loc) (num_iteration : Z)
  : M G (list Q) :=
  X ← read data;
  mret (raw_predict (take (num_iteration_for_pred model num_iteration)
                       (trees model)) X).

End Train.

End LightGBM.

(** ** The notebook *)

Module Notebook.
Import Pandas LightGBM.

(** [lgb_params]; the two copies of the notebook differ in the learning
    rate only, 0.03 in baselineV2 and 0.05 in the first baseline. *)
Definition lgb_params_with (learning_rate : Q) : list (string * ParamValue) :=
  [ ("boosting_type", PStr "gbdt");
    ("objective", PStr "regression");
    ("metric", PStr "mae");
    ("min_child_weight", PInt 5);
    ("num_leaves", PInt (2 ^ 5));
    ("lambda_l2", PInt 10);
    ("feature_fraction", PFloat (8 # 10));
    ("bagging_fraction", PFloat (8 # 10));
    ("bagging_freq", PInt 4);
    ("learning_rate", PFloat learning_rate);
    ("seed", PInt 2023);
    ("nthread", PInt 16);
    ("verbose", PInt (-1)) ].

Definition lgb_params : list (string * ParamValue) :=
  lgb_params_with (3 # 100).
Definition lgb_params_V1 : list (string * ParamValue) :=
  lgb_params_with (5 # 100).

Definition no_info : Callback := log_evaluation (-1).

(** [list(train_dataset.columns[-34:])] *)
Definition last_columns (n : nat) (df : DataFrame) : list string :=
  drop (ncols df - n) (column_names df).

(** Truth value of an optional list: [None] and [[]] are false. *)
Definition truthy {A : Type} (l : option (list A)) : bool :=
  match l with
  | Some (_ :: _) => true
  | _ => false
  end.

Section Pipeline.
Context {parser : DatetimeParser} {rng : RandomState} {learner : Learner}.

Definition time_feature (data : loc) (pred_labels : option (list string))
  : M rng_state loc :=
  data ← DataFrame_copy data;
  data ← DataFrame_drop data ["序号"];
  t ← DataFrame_getitem data "时间";
  t ← lift (to_datetime t);
  DataFrame_setitem data "时间" t;;
  t ← DataFrame_getitem data "时间";
  v ← lift (dt_month t);
  DataFrame_setitem data "month" v;;
  t ← DataFrame_getitem data "时间";
  v ← lift (dt_day t);
  DataFrame_setitem data "day" v;;
  t ← DataFrame_getitem data "时间";
  v ← lift (dt_hour t);
  DataFrame_setitem data "hour" v;;
  t ← DataFrame_getitem data "时间";
  v ← lift (dt_minute t);
  DataFrame_setitem data "minute" v;;
  t ← DataFrame_getitem data "时间";
  v ← lift (dt_isocalendar_week_astype_int t);
  DataFrame_setitem data "weekofyear" v;;
  t ← DataFrame_getitem data "时间";
  v ← lift (dt_dayofyear t);
  DataFrame_setitem data "dayofyear" v;;
  t ← DataFrame_getitem data "时间";
  v ← lift (dt_dayofweek t);
  DataFrame_setitem data "dayofweek" v;;
  t ← DataFrame_getitem data "时间";
  d ← lift (dt_dayofweek t);
  v ← lift (floordiv 6 d);
  DataFrame_setitem data "is_weekend" v;;
  data ← DataFrame_drop data ["时间"];
  if truthy pred_labels
  then DataFrame_drop data (default [] pred_labels)
  else mret data.

(** [time_feature] on the value of a frame: the same statements, with
    each assignment to [data] read as a new value.  Lemma
    [time_feature_run] relates the two. *)
Definition derive (k : string) (f : Series -> Result Series)
    (data : DataFrame) : Result DataFrame :=
  t ← get_column data "时间";
  v ← f t;
  Ok (set_column data k v).

Definition time_feature_frame (df : DataFrame)
    (pred_labels : option (list string)) : Result DataFrame :=
  data ← drop_columns df ["序号"];
  data ← derive "时间" to_datetime data;
  data ← derive "month" dt_month data;
  data ← derive "day" dt_day data;
  data ← derive "hour" dt_hour data;
  data ← derive "minute" dt_minute data;
  data ← derive "weekofyear" dt_isocalendar_week_astype_int data;
  data ← derive "dayofyear" dt_dayofyear data;
  data ← derive "dayofweek" dt_dayofweek data;
  data ← derive "is_weekend" (fun t => d ← dt_dayofweek t; floordiv 6 d) data;
  data ← drop_columns data ["时间"];
  if truthy pred_labels
  then drop_columns data (default [] pred_labels)
  else Ok data.

(** The eight columns that [time_feature] assigns, for a timestamp
    column that holds [ts]. *)
Definition calendar_columns (ts : list Calendar.Timestamp)
  : list (string * list Value) :=
  [ ("month", (fun t => VInt (Calendar.month t)) <$> ts);
    ("day", (fun t => VInt (Calendar.day t)) <$> ts);
    ("hour", (fun t => VInt (Calendar.hour t)) <$> ts);
    ("minute", (fun t => VInt (Calendar.minute t)) <$> ts);
    ("weekofyear", (fun t => VInt (ts_week t)) <$> ts);
    ("dayofyear", (fun t => VInt (ts_dayofyear t)) <$> ts);
    ("dayofweek", (fun t => VInt (ts_dayofweek t)) <$> ts);
    ("is_weekend", (fun t => VInt (ts_dayofweek t / 6)) <$> ts) ].

(** The columns of the result before any label is stripped, for a
    frame with columns [cols] whose timestamps are [ts]. *)
Definition feature_columns (cols : list (string * list Value))
    (ts : list Calendar.Timestamp) : list (string * list Value) :=
  filter (fun c => c.1 ∉ ["时间"])
    (foldl (fun cols kv => upsert kv.1 kv.2 cols)
       (upsert "时间" (VTime <$> ts)
          (filter (fun c => c.1 ∉ ["序号"]) cols))
       (calendar_columns ts)).

Definition derived_names : list string :=
  ["month"; "day"; "hour"; "minute"; "weekofyear"; "dayofyear";
   "dayofweek"; "is_weekend"].

(** How many columns a call strips as labels: the distinct names of a
    non-empty list. *)
Definition labels_stripped (pred_labels : option (list string)) : nat :=
  if truthy pred_labels then length (remove_dups (default [] pred_labels))
  else 0%nat.

(** What one turn of the loop leaves behind. *)
Record Iteration : Type := mkIteration
  { it_label : string;
    it_model : Booster;
    it_num_iteration : Z;
    it_valid_pred : list Q;
    it_test_pred : list Q;
    it_MAE : Q }.

(** The body of [for pred_label in tqdm(pred_labels)]. *)
Definition loop_body (train_set valid_set test_features submit : loc)
    (pred_labels : list string) (MAE_scores : gmap string Q)
    (pred_label : string)
  : M rng_state (gmap string Q * Iteration) :=
  train_features ← time_feature train_set (Some pred_labels);
  train_labels ← DataFrame_getitem train_set pred_label;
  let train_data := mkDataset train_features train_labels in
  valid_features ← time_feature valid_set (Some pred_labels);
  valid_labels ← DataFrame_getitem valid_set pred_label;
  let valid_data := mkDataset valid_features valid_labels in
  model ← train lgb_params train_data 200 valid_data [no_info];
  valid_pred ← predict model valid_features (best_iteration model);
  test_pred ← predict model test_features (best_iteration model);
  yv ← lift (traverse numeric (s_values valid_labels));
  MAE_score ← lift (Sklearn.mean_absolute_error valid_pred yv);
  let MAE_scores := <[pred_label := MAE_score]> MAE_scores in
  DataFrame_setitem_array submit pred_label (VFloat <$> test_pred);;
  mret (MAE_scores,
        mkIteration pred_label model (best_iteration model)
          valid_pred test_pred MAE_score).

Fixpoint for_each (train_set valid_set test_features submit : loc)
    (pred_labels : list string) (MAE_scores : gmap string Q)
    (todo : list string)
  : M rng_state (gmap string Q * list Iteration) :=
  match todo with
  | [] => mret (MAE_scores, [])
  | pred_label :: rest =>
      '(MAE_scores, it) ← loop_body train_set valid_set test_features
                            submit pred_labels MAE_scores pred_label;
      '(MAE_scores, its) ← for_each train_set valid_set test_features
                             submit pred_labels MAE_scores rest;
      mret (MAE_scores, it :: its)
  end.

Record Output : Type := mkOutput
  { submit : loc;
    MAE_scores : gmap string Q;
    train_set : loc;
    valid_set : loc;
    iterations : list Iteration }.

(** The code cells in order, from the two frames that [pd.read_csv]
    loaded to the frame written to [submit_resultV2.csv] and the
    scores printed. *)
Definition pipeline (train_dataset test_dataset : loc)
  : M rng_state Output :=
  submit ← alloc (mkDataFrame [] []);
  ids ← DataFrame_getitem test_dataset "序号";
  DataFrame_setitem submit "序号" ids;;
  df ← read train_dataset;
  let pred_labels := last_columns 34 df in
  '(train_set, valid_set) ←
    Sklearn.train_test_split train_dataset (2 # 10) None;
  test_features ← time_feature test_dataset None;
  '(MAE_scores, its) ← for_each train_set valid_set test_features submit
                         pred_labels ∅ pred_labels;
  mret (mkOutput submit MAE_scores train_set valid_set its).

(** What the loop relies on and keeps: the two partitions and the test
    features where they are, with the contents they have; a result table;
    the generator. *)
Record loop_invariant (train_set valid_set test_features submit : loc)
    (dtr dva dtf : DataFrame) (g : rng_state) (w : World rng_state) : Prop :=
  { inv_train : heap w !! train_set = Some dtr;
    inv_valid : heap w !! valid_set = Some dva;
    inv_test : heap w !! test_features = Some dtf;
    inv_submit : is_Some (heap w !! submit);
    inv_rng : global_rng w = g }.

(** What one iteration trained and validated on. *)
Definition fitted_on (dtr dva : DataFrame) (pred_labels : list string)
    (it : Iteration) : Prop :=
  time_feature_frame dtr (Some pred_labels) = Ok (train_data (it_model it)) /\
  get_column dtr (it_label it) = Ok (train_label (it_model it)) /\
  time_feature_frame dva (Some pred_labels) = Ok (valid_data (it_model it)) /\
  get_column dva (it_label it) = Ok (valid_label (it_model it)).

(** What one iteration predicted with and scored: 0 was passed as
    [num_iteration], both predictions sum every tree of the booster, and
    the score is the error of the validation prediction. *)
Definition scored_on_all_trees (dtf : DataFrame) (it : Iteration) : Prop :=
  it_num_iteration it = 0 /\
  (length (trees (it_model it)) <= 200)%nat /\
  it_valid_pred it
  = raw_predict (trees (it_model it)) (valid_data (it_model it)) /\
  it_test_pred it = raw_predict (trees (it_model it)) dtf /\
  exists yv,
    traverse numeric (s_values (valid_label (it_model it))) = Ok yv /\
    Sklearn.mean_absolute_error (it_valid_pred it) yv = Ok (it_MAE it).

End Pipeline.

End Notebook.

(** ** A small environment to run the notebook in

    One instance of each interface and two small tables, for the concrete
    runs among the statements below. *)

Module Samples.
Import Pandas LightGBM Notebook.

Definition digit (c : ascii) : option Z :=
  let n := Z.of_N (N_of_ascii c) in
  if (48 <=? n) && (n <=? 57) then Some (n - 48) else None.

Fixpoint number (acc : Z) (l : list ascii) : option Z :=
  match l with
  | [] => Some acc
  | c :: r => d ← digit c; number (10 * acc + d) r
  end.

(** Timestamps written [YYYY-MM-DD HH:MM:SS], and nothing else. *)
Definition iso_datetime (s : string) : option Calendar.Timestamp :=
  let cs := list_ascii_of_string s in
  let field := fun i n => number 0 (take n (drop i cs)) in
  let sep := fun i c => bool_decide (cs !! i = Some c) in
  if bool_decide (length cs = 19%nat)
     && sep 4%nat "-"%char && sep 7%nat "-"%char && sep 10%nat " "%char
     && sep 13%nat ":"%char && sep 16%nat ":"%char
  then
    y ← field 0%nat 4%nat;
    m ← field 5%nat 2%nat;
    d ← field 8%nat 2%nat;
    h ← field 11%nat 2%nat;
    n ← field 14%nat 2%nat;
    s ← field 17%nat 2%nat;
    if (1 <=? m) && (m <=? 12) && (1 <=? d) && (d <=? 31)
       && (h <=? 23) && (n <=? 59) && (s <=? 59)
    then Some (Calendar.mkTimestamp y m d h n s)
    else None
  else None.

#[export] Instance iso_parser : DatetimeParser := fun v =>
  match v with
  | VStr s => iso_datetime s
  | _ => None
  end.

Lemma rotate_seq_Permutation (n g : nat) : rotate g (seq 0 n) ≡ₚ seq 0 n.
Proof.
  unfold rotate. rewrite Permutation_app_comm. by rewrite take_drop.
Qed.

(** A generator whose [k]-th permutation rotates [range(n)] by [k]. *)
#[export] Instance rotating : RandomState :=
  {| rng_state := nat;
     RandomState_seed := Z.to_nat;
     permutation := fun n g => (rotate g (seq 0 n), S g);
     permutation_Permutation := fun n g => rotate_seq_Permutation n g |}.

(** A learner of constant trees: it refuses a training set of fewer than
    two rows; each round moves the prediction one unit towards the mean of
    the training labels, rounded down, and stops growing once it is
    there. *)
#[export] Instance unit_step : Learner :=
  {| Tree := Z;
     refuses := fun _ X _ =>
       if (nrows X <? 2)%nat then Some "too few rows" else None;
     grow := fun _ _ y ts =>
       let target :=
         Qfloor (foldr Qplus 0%Q y / inject_Z (Z.of_nat (length y))) in
       let current := foldr Z.add 0 ts in
       if current <? target then Some 1
       else if target <? current then Some (-1)
       else None;
     tree_output := fun t X => replicate (nrows X) (inject_Z t) |}.

Definition label_name (j : nat) : string := "上部温度" +:+ pretty j.

Definition stamps : list string :=
  ["2023-07-21 08:00:00"; "2023-07-22 09:15:00"; "2023-07-23 10:30:00";
   "2023-07-24 11:45:00"; "2023-07-25 12:59:00"].

(** Five rows: identifier, timestamp and 34 label columns. *)
Definition train_table : DataFrame :=
  mkDataFrame [0; 1; 2; 3; 4]
    (("序号", VInt <$> [1; 2; 3; 4; 5]) :: ("时间", VStr <$> stamps)
     :: ((fun j => (label_name j,
                    (fun i => VInt (Z.of_nat (j + i))) <$> [0; 1; 2; 3; 4]%nat))
           <$> seq 1 34)).

Definition test_table : DataFrame :=
  mkDataFrame [0; 1]
    [("序号", VInt <$> [6; 7]);
     ("时间", VStr <$> ["2023-07-29 00:00:00"; "2023-07-30 23:59:00"])].

(** A table that already has a column called [month]. *)
Definition month_table : DataFrame :=
  mkDataFrame [0; 1]
    [("序号", VInt <$> [1; 2]);
     ("时间", VStr <$> ["2023-07-22 09:15:00"; "2023-07-23 10:30:00"]);
     ("month", VStr <$> ["July"; "July"])].

(** A table whose second timestamp is not a date. *)
Definition broken_table : DataFrame :=
  mkDataFrame [0; 1; 2]
    [("序号", VInt <$> [1; 2; 3]);
     ("时间", VStr <$> ["2023-07-22 09:15:00"; "yesterday"; "2023-07-23 10:30:00"])].

(** A table without identifier column, its only timestamp not a date. *)
Definition no_id_table : DataFrame :=
  mkDataFrame [0] [("时间", [VStr "yesterday"])].

(** Six rows of one column. *)
Definition six_rows : DataFrame :=
  mkDataFrame [0; 1; 2; 3; 4; 5] [("x", VInt <$> [10; 11; 12; 13; 14; 15])].

(** Two rows of features, the training labels 10, the validation labels
    3: with [unit_step] the validation error is lowest after three rounds
    and grows from there. *)
Definition fit_features : DataFrame :=
  mkDataFrame [0; 1] [("x", [VInt 1; VInt 2])].
Definition fit_world : World nat := mkWorld {[ 1%positive := fit_features ]} 0%nat.
Definition fit_train : Dataset :=
  mkDataset 1%positive (mkSeries [0; 1] [VInt 10; VInt 10]).
Definition fit_valid : Dataset :=
  mkDataset 1%positive (mkSeries [0; 1] [VInt 3; VInt 3]).

(** A table whose second timestamp is missing. *)
Definition gap_table : DataFrame :=
  mkDataFrame [0; 1]
    [("序号", VInt <$> [1; 2]);
     ("时间", [VStr "2023-07-22 09:15:00"; VNaN])].

Definition train_dataset : loc := 1%positive.
Definition test_dataset : loc := 2%positive.

Definition world (g : nat) : World nat :=
  mkWorld (<[train_dataset := train_table]> (<[test_dataset := test_table]> ∅)) g.

End Samples.

(** * Properties *)

Example dayofweek_2023_07_22 : Calendar.dayofweek 2023 7 22 = 5.
Proof. reflexivity. Qed.
Example dayofweek_2023_07_23 : Calendar.dayofweek 2023 7 23 = 6.
Proof. reflexivity. Qed.
Example dayofweek_2000_02_29 : Calendar.dayofweek 2000 2 29 = 1.
Proof. reflexivity. Qed.
Example week_2023_01_01 : Calendar.get_week_of_year 2023 1 1 = 52.
Proof. reflexivity. Qed.
Example week_2021_01_03 : Calendar.get_week_of_year 2021 1 3 = 53.
Proof. reflexivity. Qed.
Example week_2024_12_30 : Calendar.get_week_of_year 2024 12 30 = 1.
Proof. reflexivity. Qed.
Example doy_2024_12_31 : Calendar.get_day_of_year 2024 12 31 = 366.
Proof. reflexivity. Qed.

(** ** Running store programs *)

Section StoreSteps.
Import Pandas.
Context {G : Type}.
Implicit Types (w : World G) (l : loc) (df : DataFrame).

Lemma run_bind {A B} (c : M G A) (f : A -> M G B) w :
  (c ≫= f) w = match c w with
               | Ok (a, w') => f a w'
               | Raise e => Raise e
               end.
Proof. reflexivity. Qed.

Lemma run_lift {A} (r : Result A) w :
  lift r w = match r with Ok a => Ok (a, w) | Raise e => Raise e end.
Proof. reflexivity. Qed.

Lemma fresh_not_allocated w : heap w !! fresh (dom (heap w)) = None.
Proof. apply not_elem_of_dom, is_fresh. Qed.

Lemma run_read w l df : heap w !! l = Some df -> read l w = Ok (df, w).
Proof. unfold read. by intros ->. Qed.

Lemma run_write w l df df' :
  heap w !! l = Some df ->
  write l df' w = Ok (tt, mkWorld (<[l := df']> (heap w)) (global_rng w)).
Proof. unfold write. by intros ->. Qed.

Lemma run_getitem w l df k :
  heap w !! l = Some df ->
  DataFrame_getitem l k w = lift (get_column df k) w.
Proof. intros Hl. unfold DataFrame_getitem. by rewrite run_bind, (run_read _ _ _ Hl). Qed.

Lemma run_setitem w l df k s :
  heap w !! l = Some df ->
  DataFrame_setitem l k s w
  = Ok (tt, mkWorld (<[l := set_column df k s]> (heap w)) (global_rng w)).
Proof.
  intros Hl. unfold DataFrame_setitem.
  rewrite run_bind, (run_read _ _ _ Hl). by apply (run_write _ _ df).
Qed.

Lemma run_drop w l df labels :
  heap w !! l = Some df ->
  DataFrame_drop l labels w
  = match drop_columns df labels with
    | Ok df' => alloc df' w
    | Raise e => Raise e
    end.
Proof.
  intros Hl. unfold DataFrame_drop.
  rewrite run_bind, (run_read _ _ _ Hl), run_bind, run_lift.
  by destruct (drop_columns df labels).
Qed.

Lemma run_copy w l df :
  heap w !! l = Some df -> DataFrame_copy l w = alloc df w.
Proof. intros Hl. unfold DataFrame_copy. by rewrite run_bind, (run_read _ _ _ Hl). Qed.

Lemma preserves_refl w : preserves w w.
Proof. by split. Qed.

Lemma preserves_trans w1 w2 w3 :
  preserves w1 w2 -> preserves w2 w3 -> preserves w1 w3.
Proof. intros [? ?] [? ?]. split; [congruence | eauto]. Qed.

Lemma preserves_alloc w df :
  preserves w (mkWorld (<[fresh (dom (heap w)) := df]> (heap w)) (global_rng w)).
Proof.
  split; [done |]. intros l d Hl. simpl.
  rewrite lookup_insert_ne; [done |].
  intros <-. by rewrite fresh_not_allocated in Hl.
Qed.

(** Writing to an object that [w0] does not have keeps [w0]. *)
Lemma preserves_write w0 w l df :
  heap w0 !! l = None -> preserves w0 w ->
  preserves w0 (mkWorld (<[l := df]> (heap w)) (global_rng w)).
Proof.
  intros Hnew [Hg Hh]. split; [done |]. intros l' d Hl'. simpl.
  rewrite lookup_insert_ne; [by apply Hh |]. intros <-. congruence.
Qed.

End StoreSteps.

(** ** [time_feature] on the store and on frame values *)

Section TimeFeatureRun.
Import Pandas Notebook.
Context {parser : DatetimeParser} {rng : RandomState}.
Implicit Types (h : gmap loc DataFrame) (g : rng_state) (l : loc).

Lemma run_copy_bind {B} h g l df (k : loc -> M rng_state B) :
  h !! l = Some df ->
  (DataFrame_copy l ≫= k) (mkWorld h g)
  = k (fresh (dom h)) (mkWorld (<[fresh (dom h) := df]> h) g).
Proof. intros Hl. by rewrite run_bind, (run_copy _ _ df). Qed.

Lemma run_drop_bind {B} h g l d labels (k : loc -> M rng_state B) :
  h !! l = Some d ->
  (DataFrame_drop l labels ≫= k) (mkWorld h g)
  = match drop_columns d labels with
    | Ok d' => k (fresh (dom h)) (mkWorld (<[fresh (dom h) := d']> h) g)
    | Raise e => Raise e
    end.
Proof.
  intros Hl. rewrite run_bind, (run_drop _ _ d); [|done].
  by destruct (drop_columns d labels).
Qed.

(** One assignment [data[k] = f(data["时间"])] on the object at [l]. *)
Lemma run_derive_bind {B} h g l d k f (rest : unit -> M rng_state B) :
  (DataFrame_getitem l "时间" ≫= fun t =>
     lift (f t) ≫= fun v => DataFrame_setitem l k v ≫= rest)
    (mkWorld (<[l := d]> h) g)
  = match derive k f d with
    | Ok d' => rest tt (mkWorld (<[l := d']> h) g)
    | Raise e => Raise e
    end.
Proof.
  rewrite run_bind, (run_getitem _ _ d) by apply lookup_insert_eq.
  unfold derive. rewrite run_lift.
  destruct (get_column d "时间") as [t|e]; [|done]. cbn [mbind Result_bind].
  rewrite run_bind, run_lift. destruct (f t) as [v|e]; [|done].
  rewrite run_bind, (run_setitem _ _ d) by apply lookup_insert_eq.
  cbn [heap global_rng]. by rewrite insert_insert_eq.
Qed.

Lemma run_derive2_bind {B} h g l d k (f1 f2 : Series -> Result Series)
    (rest : unit -> M rng_state B) :
  (DataFrame_getitem l "时间" ≫= fun t =>
     lift (f1 t) ≫= fun d => lift (f2 d) ≫= fun v =>
     DataFrame_setitem l k v ≫= rest)
    (mkWorld (<[l := d]> h) g)
  = match derive k (fun t => d ← f1 t; f2 d) d with
    | Ok d' => rest tt (mkWorld (<[l := d']> h) g)
    | Raise e => Raise e
    end.
Proof.
  rewrite run_bind, (run_getitem _ _ d) by apply lookup_insert_eq.
  unfold derive. rewrite run_lift.
  destruct (get_column d "时间") as [t|e]; [|done]. cbn [mbind Result_bind].
  rewrite run_bind, run_lift.
  destruct (f1 t) as [x|e]; cbn [mbind Result_bind]; [|done].
  rewrite run_bind, run_lift. destruct (f2 x) as [v|e]; [|done].
  rewrite run_bind, (run_setitem _ _ d) by apply lookup_insert_eq.
  cbn [heap global_rng]. by rewrite insert_insert_eq.
Qed.

Lemma fresh_after h g (w' : World rng_state) :
  preserves (mkWorld h g) w' -> h !! fresh (dom (heap w')) = None.
Proof.
  intros [_ Hp]. destruct (h !! fresh (dom (heap w'))) as [d|] eqn:E; [|done].
  apply Hp in E. by rewrite fresh_not_allocated in E.
Qed.

(** A run of [time_feature] allocates its result, returns the frame that
    [time_feature_frame] computes from the value of its argument, and
    leaves every object that existed before as it was: the argument is
    never written to. *)
Lemma time_feature_run h g data df pred_labels :
  h !! data = Some df ->
  match time_feature_frame df pred_labels with
  | Ok out =>
      exists l w',
        time_feature data pred_labels (mkWorld h g) = Ok (l, w') /\
        heap w' !! l = Some out /\
        h !! l = None /\
        preserves (mkWorld h g) w'
  | Raise e => time_feature data pred_labels (mkWorld h g) = Raise e
  end.
Proof.
  intros Hd. unfold time_feature, time_feature_frame.
  rewrite (run_copy_bind _ _ _ df) by done.
  rewrite (run_drop_bind _ _ _ df) by apply lookup_insert_eq.
  destruct (drop_columns df _) as [d0|e]; cbn [mbind Result_bind]; [|done].
  do 8 (rewrite run_derive_bind;
        destruct (derive _ _ _) as [?d|e]; cbn [mbind Result_bind]; [|done]).
  rewrite run_derive2_bind.
  destruct (derive _ _ _) as [d9|e]; cbn [mbind Result_bind]; [|done].
  rewrite (run_drop_bind _ _ _ d9) by apply lookup_insert_eq.
  destruct (drop_columns d9 _) as [d10|e]; cbn [mbind Result_bind]; [|done].
  set (h1 := <[fresh (dom h) := df]> h).
  set (h2 := <[fresh (dom h1) := d9]> h1).
  set (h3 := <[fresh (dom h2) := d10]> h2).
  assert (P3 : preserves (mkWorld h g) (mkWorld h3 g)).
  { eapply preserves_trans; [apply (preserves_alloc (mkWorld h g) df) |].
    eapply preserves_trans; [apply (preserves_alloc (mkWorld h1 g) d9) |].
    apply (preserves_alloc (mkWorld h2 g) d10). }
  destruct (truthy pred_labels).
  - pose proof (run_drop (mkWorld h3 g) (fresh (dom h2)) d10
                  (default [] pred_labels) (lookup_insert_eq _ _ _)) as Hrun.
    destruct (drop_columns d10 _) as [d11|e]; [|done].
    eexists _, _. split; [exact Hrun |]. cbn [heap].
    split; [apply lookup_insert_eq |].
    split; [apply (fresh_after h g (mkWorld h3 g) P3) |].
    eapply preserves_trans; [exact P3 |].
    apply (preserves_alloc (mkWorld h3 g) d11).
  - eexists _, _. split; [reflexivity |]. cbn [heap].
    split; [apply lookup_insert_eq |].
    split; [| exact P3].
    apply (fresh_after h g (mkWorld h2 g)).
    eapply preserves_trans; [apply (preserves_alloc (mkWorld h g) df) |].
    apply (preserves_alloc (mkWorld h1 g) d9).
Qed.

End TimeFeatureRun.

(** ** Columns of a frame *)

Section Columns.
Import Pandas.
Implicit Types (k : string) (vs : list Value)
  (cols : list (string * list Value)).

Lemma traverse_length {A B} (f : A -> Result B) l l' :
  traverse f l = Ok l' -> length l' = length l.
Proof.
  revert l'. induction l as [|x l IH]; intros l' Hl; simpl in Hl.
  - by inversion Hl.
  - destruct (f x); [|done]. destruct (traverse f l); [|done].
    inversion Hl; subst. simpl. f_equal. by apply IH.
Qed.

Lemma traverse_Forall2 {A B} (f : A -> Result B) l l' :
  traverse f l = Ok l' <-> Forall2 (fun x y => f x = Ok y) l l'.
Proof.
  split.
  - revert l'. induction l as [|x l IH]; intros l' Hl; simpl in Hl.
    + inversion Hl. constructor.
    + destruct (f x) eqn:E; [|done]. destruct (traverse f l); [|done].
      inversion Hl; subst. constructor; [done | by apply IH].
  - induction 1 as [|x y l l' Hxy _ IH]; simpl; [done |].
    by rewrite Hxy, IH.
Qed.

Lemma traverse_fmap {A B C} (f : B -> Result C) (g : A -> B) (h : A -> C) l :
  (forall x, f (g x) = Ok (h x)) -> traverse f (g <$> l) = Ok (h <$> l).
Proof.
  intros Hf. induction l as [|x l IH]; csimpl; [done |].
  by rewrite Hf, IH.
Qed.

Lemma replace_column_names k vs cols :
  (replace_column k vs cols).*1 = cols.*1.
Proof.
  induction cols as [|[k' vs'] cols IH]; csimpl; [done |].
  case_decide; csimpl; [by subst | by rewrite IH].
Qed.

Lemma replace_column_length k vs cols :
  length (replace_column k vs cols) = length cols.
Proof. by rewrite <-(length_fmap fst), replace_column_names, length_fmap. Qed.

Lemma upsert_names k vs cols :
  (upsert k vs cols).*1 = if decide (k ∈ cols.*1) then cols.*1 else (cols.*1 ++ [k])%list.
Proof.
  unfold upsert. case_decide.
  - apply replace_column_names.
  - by rewrite fmap_app.
Qed.

Lemma lookup_column_None k cols : lookup_column k cols = None <-> k ∉ cols.*1.
Proof.
  induction cols as [|[k' vs'] cols IH]; csimpl.
  - split; [intros _; apply not_elem_of_nil | done].
  - case_decide; subst.
    + split; [done | intros []; left].
    + rewrite IH, not_elem_of_cons. tauto.
Qed.

Lemma lookup_column_is_Some k cols :
  is_Some (lookup_column k cols) <-> k ∈ cols.*1.
Proof.
  rewrite <-not_eq_None_Some, lookup_column_None.
  split; [apply dec_stable | tauto].
Qed.

Lemma lookup_column_elem k vs cols :
  lookup_column k cols = Some vs -> (k, vs) ∈ cols.
Proof.
  induction cols as [|[k' vs'] cols IH]; csimpl; [done |].
  case_decide; subst.
  - intros [= ->]. left.
  - intros. right. by apply IH.
Qed.

Lemma lookup_replace_column_eq k vs cols :
  k ∈ cols.*1 -> lookup_column k (replace_column k vs cols) = Some vs.
Proof.
  induction cols as [|[k' vs'] cols IH]; csimpl.
  - by intros ?%elem_of_nil.
  - intros Hk. case_decide; csimpl.
    + by rewrite decide_True.
    + rewrite decide_False by done. apply IH.
      apply elem_of_cons in Hk as [? | ?]; [done | done].
Qed.

Lemma lookup_replace_column_ne k k' vs cols :
  k <> k' -> lookup_column k' (replace_column k vs cols) = lookup_column k' cols.
Proof.
  intros Hne. induction cols as [|[k0 vs0] cols IH]; csimpl; [done |].
  destruct (decide (k = k0)) as [->|]; csimpl.
  - by rewrite !decide_False by done.
  - case_decide; [done | apply IH].
Qed.

Lemma lookup_column_app k cols cols' :
  lookup_column k (cols ++ cols')%list
  = match lookup_column k cols with
    | Some vs => Some vs
    | None => lookup_column k cols'
    end.
Proof.
  induction cols as [|[k' vs'] cols IH]; csimpl; [done |].
  by case_decide.
Qed.

Lemma lookup_upsert_eq k vs cols : lookup_column k (upsert k vs cols) = Some vs.
Proof.
  unfold upsert. case_decide as Hk.
  - by apply lookup_replace_column_eq.
  - apply lookup_column_None in Hk.
    rewrite lookup_column_app, Hk. csimpl. by rewrite decide_True.
Qed.

Lemma lookup_upsert_ne k k' vs cols :
  k <> k' -> lookup_column k' (upsert k vs cols) = lookup_column k' cols.
Proof.
  intros Hne. unfold upsert. case_decide.
  - by apply lookup_replace_column_ne.
  - rewrite lookup_column_app. destruct (lookup_column k' cols); [done |].
    csimpl. by rewrite decide_False by done.
Qed.

Lemma Forall_replace_column (P : string * list Value -> Prop) k vs cols :
  Forall P cols -> P (k, vs) -> Forall P (replace_column k vs cols).
Proof.
  intros Hc Hk. induction Hc as [|[k' vs'] cols Hx Hc IH]; csimpl; [done |].
  case_decide; constructor; auto.
Qed.

Lemma Forall_upsert (P : string * list Value -> Prop) k vs cols :
  Forall P cols -> P (k, vs) -> Forall P (upsert k vs cols).
Proof.
  intros Hc Hk. unfold upsert. case_decide.
  - by apply Forall_replace_column.
  - apply Forall_app. split; [done | by constructor].
Qed.

Lemma lookup_column_filter (P : string -> Prop) `{forall k, Decision (P k)} k cols :
  lookup_column k (filter (fun c => P c.1) cols)
  = if decide (P k) then lookup_column k cols else None.
Proof.
  induction cols as [|[k' vs'] cols IH]; csimpl.
  - by case_decide.
  - rewrite filter_cons. csimpl. destruct (decide (P k')) as [HP|HP]; csimpl.
    + destruct (decide (k = k')) as [->|].
      * by case_decide.
      * apply IH.
    + rewrite IH. destruct (decide (k = k')) as [->|]; [|done].
      by case_decide.
Qed.

Lemma filter_names (P : string -> Prop) `{forall k, Decision (P k)} cols :
  (filter (fun c => P c.1) cols).*1 = filter P cols.*1.
Proof.
  induction cols as [|[k' vs'] cols IH]; csimpl; [done |].
  rewrite !filter_cons. csimpl. case_decide; csimpl; by rewrite IH.
Qed.

End Columns.

(** ** What [time_feature_frame] returns *)

Section TimeFeatureFrame.
Import Pandas Notebook.
Context {parser : DatetimeParser}.
Implicit Types (d df : DataFrame) (k : string) (vs : list Value).

Lemma drop_columns_Ok d labels d' :
  drop_columns d labels = Ok d' ->
  Forall (fun k => k ∈ column_names d) labels /\
  d' = mkDataFrame (index d) (filter (fun c => c.1 ∉ labels) (columns d)).
Proof.
  unfold drop_columns.
  destruct (filter _ labels) as [|k0 r] eqn:E; [|done].
  intros [= <-]. split; [|done].
  apply Forall_forall. intros k Hk.
  destruct (decide (k ∈ column_names d)) as [|Hn]; [done |].
  by destruct (filter_nil_not_elem_of _ _ k E Hn).
Qed.

Lemma drop_columns_Forall d labels :
  Forall (fun k => k ∈ column_names d) labels ->
  drop_columns d labels
  = Ok (mkDataFrame (index d) (filter (fun c => c.1 ∉ labels) (columns d))).
Proof.
  intros Hl. unfold drop_columns.
  destruct (filter _ labels) as [|k0 r] eqn:E; [done |].
  assert (Hk : k0 ∈ filter (fun k => k ∉ column_names d) labels)
    by (rewrite E; left).
  apply list_elem_of_filter in Hk as [Hk1 Hk2].
  rewrite Forall_forall in Hl. by destruct Hk1; apply Hl.
Qed.

(** Assigning a series cut from the frame itself is an [upsert]. *)
Lemma set_column_own d k vs :
  length vs = nrows d ->
  set_column d k (mkSeries (index d) vs)
  = mkDataFrame (index d) (upsert k vs (columns d)).
Proof.
  unfold set_column, nrows, align. simpl. intros Hlen.
  destruct (index d) as [|i idx] eqn:Ei, vs as [|v vs']; try done; simpl.
  - by rewrite Ei, decide_True.
  - by rewrite Ei, decide_True.
Qed.

Lemma rectangular_column d k vs :
  rectangular d -> lookup_column k (columns d) = Some vs ->
  length vs = nrows d.
Proof.
  intros Hr Hk%lookup_column_elem.
  unfold rectangular in Hr. rewrite Forall_forall in Hr. by apply Hr in Hk.
Qed.

Lemma derive_map_values idx cols k f d' tdt :
  rectangular (mkDataFrame idx cols) ->
  lookup_column "时间" cols = Some tdt ->
  derive k (map_values f) (mkDataFrame idx cols) = Ok d' ->
  exists v, traverse f tdt = Ok v /\ d' = mkDataFrame idx (upsert k v cols).
Proof.
  intros Hr Ht. unfold derive, get_column, map_values.
  cbn [index columns]. rewrite Ht.
  cbn [mbind Result_bind s_values s_index].
  destruct (traverse f tdt) as [v|e] eqn:Ev; cbn [mbind Result_bind]; [|done].
  intros [= <-]. exists v. split; [done |].
  apply (set_column_own (mkDataFrame idx cols)).
  rewrite (traverse_length _ _ _ Ev).
  by apply (rectangular_column (mkDataFrame idx cols) "时间").
Qed.

Lemma derive_map_values2 idx cols k f1 f2 d' tdt :
  rectangular (mkDataFrame idx cols) ->
  lookup_column "时间" cols = Some tdt ->
  derive k (fun t => x ← map_values f1 t; map_values f2 x)
    (mkDataFrame idx cols) = Ok d' ->
  exists v1 v, traverse f1 tdt = Ok v1 /\ traverse f2 v1 = Ok v /\
               d' = mkDataFrame idx (upsert k v cols).
Proof.
  intros Hr Ht. unfold derive, get_column, map_values.
  cbn [index columns]. rewrite Ht.
  cbn [mbind Result_bind s_values s_index].
  destruct (traverse f1 tdt) as [v1|e] eqn:Ev1;
    cbn [mbind Result_bind s_values s_index]; [|done].
  destruct (traverse f2 v1) as [v|e] eqn:Ev; cbn [mbind Result_bind]; [|done].
  intros [= <-]. exists v1, v. do 2 (split; [done |]).
  apply (set_column_own (mkDataFrame idx cols)).
  rewrite (traverse_length _ _ _ Ev), (traverse_length _ _ _ Ev1).
  by apply (rectangular_column (mkDataFrame idx cols) "时间").
Qed.

Lemma rectangular_upsert idx cols k vs :
  rectangular (mkDataFrame idx cols) -> length vs = length idx ->
  rectangular (mkDataFrame idx (upsert k vs cols)).
Proof. intros Hr Hl. by apply Forall_upsert. Qed.

Lemma rectangular_filter idx cols (P : string * list Value -> Prop)
    `{forall c, Decision (P c)} :
  rectangular (mkDataFrame idx cols) ->
  rectangular (mkDataFrame idx (filter P cols)).
Proof.
  unfold rectangular. simpl. rewrite !Forall_forall.
  intros Hr c [_ Hc]%list_elem_of_filter. by apply Hr.
Qed.

(** A column of timestamps with a week for every row has no missing
    timestamp. *)
Lemma week_all_times tdt v :
  traverse (fun v => match v with
                     | VTime t => Ok (VInt (ts_week t))
                     | VNaT => Raise (ValueError "cannot convert NA to integer")
                     | _ => Raise (AttributeError
                         "Can only use .dt accessor with datetimelike values")
                     end) tdt = Ok v ->
  exists ts, tdt = VTime <$> ts.
Proof.
  revert v. induction tdt as [|x tdt IH]; intros v Hv.
  - by exists [].
  - simpl in Hv. destruct x; try done.
    destruct (traverse _ tdt) as [v'|] eqn:E; [|done].
    destruct (IH _ eq_refl) as [ts ->]. by exists (t :: ts).
Qed.

Lemma dt_field_times (f : Calendar.Timestamp -> Z) ts v :
  traverse (dt_field f) (VTime <$> ts) = Ok v ->
  v = (fun t => VInt (f t)) <$> ts.
Proof.
  rewrite (traverse_fmap _ _ (fun t => VInt (f t))) by done. congruence.
Qed.

Lemma derive_no_time idx cols k f :
  lookup_column "时间" cols = None ->
  derive k f (mkDataFrame idx cols) = Raise (KeyError ["时间"]).
Proof. intros Ht. unfold derive, get_column. cbn [columns]. by rewrite Ht. Qed.

(** One [derive] step of [time_feature_frame] under way in [Hout]: the
    columns so far are [c], the step's column is [v], the columns after it
    are [c']. *)
Ltac derive_next Hout Hr Ht c v Hv c' Hc' :=
  let E := fresh "E" in
  match type of Hout with
  | (derive ?k ?f ?d ≫= _) = Ok _ =>
      destruct (derive k f d) as [?|] eqn:E;
      cbn [mbind Result_bind] in Hout; [|done];
      apply (derive_map_values _ _ _ _ _ _ Hr Ht) in E as (v & Hv & ->);
      apply (rectangular_upsert _ _ k v) in Hr;
        [| by rewrite (traverse_length _ _ _ Hv)];
      apply (eq_trans (lookup_upsert_ne k "时间" v c ltac:(done))) in Ht;
      remember (upsert k v c) as c' eqn:Hc'
  end.

(** The result of [time_feature_frame], column by column. *)
Lemma time_feature_frame_Ok df pl out :
  rectangular df -> time_feature_frame df pl = Ok out ->
  exists tcol ts,
    "序号" ∈ column_names df /\
    lookup_column "时间" (filter (fun c => c.1 ∉ ["序号"]) (columns df)) = Some tcol /\
    traverse to_datetime_scalar tcol = Ok (VTime <$> ts) /\
    length ts = nrows df /\
    if truthy pl then
      Forall (fun k => k ∈ (feature_columns (columns df) ts).*1) (default [] pl) /\
      out = mkDataFrame (index df)
              (filter (fun c => c.1 ∉ default [] pl) (feature_columns (columns df) ts))
    else out = mkDataFrame (index df) (feature_columns (columns df) ts).
Proof.
  intros Hr Hout. unfold time_feature_frame in Hout.
  destruct (drop_columns df _) as [d0|] eqn:E0; cbn [mbind Result_bind] in Hout; [|done].
  apply drop_columns_Ok in E0 as [Hid ->].
  rewrite Forall_singleton in Hid.
  unfold feature_columns.
  remember (filter (fun c => c.1 ∉ ["序号"]) (columns df)) as base eqn:Hbase.
  assert (Hr0 : rectangular (mkDataFrame (index df) base)).
  { subst base. by apply rectangular_filter. }
  destruct (lookup_column "时间" base) as [tcol|] eqn:Ht.
  2:{ by rewrite (derive_no_time _ _ _ _ Ht) in Hout. }
  destruct (derive "时间" _ _) as [d1|] eqn:E1; cbn [mbind Result_bind] in Hout; [|done].
  apply (derive_map_values _ _ _ _ _ _ Hr0 Ht) in E1 as (tdt & Htdt & ->).
  assert (Hlen : length tdt = length (index df)).
  { rewrite (traverse_length _ _ _ Htdt).
    by apply (rectangular_column (mkDataFrame (index df) base) "时间"). }
  assert (Ht1 : lookup_column "时间" (upsert "时间" tdt base) = Some tdt)
    by apply lookup_upsert_eq.
  assert (Hr1 : rectangular (mkDataFrame (index df) (upsert "时间" tdt base)))
    by (by apply rectangular_upsert).
  remember (upsert "时间" tdt base) as c1 eqn:Hc1.
  derive_next Hout Hr1 Ht1 c1 v1 Hv1 c2 Hc2.
  derive_next Hout Hr1 Ht1 c2 v2 Hv2 c3 Hc3.
  derive_next Hout Hr1 Ht1 c3 v3 Hv3 c4 Hc4.
  derive_next Hout Hr1 Ht1 c4 v4 Hv4 c5 Hc5.
  derive_next Hout Hr1 Ht1 c5 v5 Hv5 c6 Hc6.
  derive_next Hout Hr1 Ht1 c6 v6 Hv6 c7 Hc7.
  derive_next Hout Hr1 Ht1 c7 v7 Hv7 c8 Hc8.
  destruct (derive "is_weekend" _ _) as [d9|] eqn:E9;
    cbn [mbind Result_bind] in Hout; [|done].
  unfold dt_dayofweek, floordiv in E9.
  apply (derive_map_values2 _ _ _ _ _ _ _ Hr1 Ht1) in E9
    as (v8' & v8 & Hv8' & Hv8 & ->).
  destruct (week_all_times _ _ Hv5) as [ts ->].
  apply dt_field_times in Hv1 as ->, Hv2 as ->, Hv3 as ->, Hv4 as ->,
    Hv6 as ->, Hv7 as ->, Hv8' as ->.
  rewrite (traverse_fmap _ _ (fun t => VInt (ts_week t))) in Hv5 by done.
  injection Hv5 as <-.
  rewrite (traverse_fmap _ _ (fun t => VInt (ts_dayofweek t / 6))) in Hv8 by done.
  injection Hv8 as <-.
  destruct (drop_columns _ ["时间"]) as [d10|] eqn:E10;
    cbn [mbind Result_bind] in Hout; [|done].
  apply drop_columns_Ok in E10 as [_ ->]. cbn [index columns] in Hout.
  exists tcol, ts. split; [exact Hid |]. split; [reflexivity |]. split; [exact Htdt |].
  split; [by rewrite length_fmap in Hlen |].
  unfold calendar_columns. cbn [foldl fst snd].
  rewrite <-Hc1, <-Hc2, <-Hc3, <-Hc4, <-Hc5, <-Hc6, <-Hc7, <-Hc8.
  destruct (truthy pl).
  - apply drop_columns_Ok in Hout as [Hall ->].
    unfold column_names in Hall. cbn [index columns] in Hall |- *.
    split; [exact Hall | reflexivity].
  - injection Hout as <-. reflexivity.
Qed.
End TimeFeatureFrame.

(** ** Rows and columns of the result of [time_feature] *)

Section TimeFeatureShape.
Import Pandas Notebook.
Context {parser : DatetimeParser} {rng : RandomState}.
Implicit Types (w : World rng_state) (df out : DataFrame).

(** A successful run returns the frame of [time_feature_frame] in a new
    object and changes no object that existed. *)
Lemma time_feature_Ok w data df pred_labels l w' :
  heap w !! data = Some df ->
  time_feature data pred_labels w = Ok (l, w') ->
  exists out,
    time_feature_frame df pred_labels = Ok out /\
    heap w' !! l = Some out /\
    heap w !! l = None /\
    preserves w w'.
Proof.
  destruct w as [h g]. cbn [heap]. intros Hd Hrun.
  pose proof (time_feature_run h g data df pred_labels Hd) as Hr.
  destruct (time_feature_frame df pred_labels) as [out|e].
  - destruct Hr as (l0 & w0 & Hrun0 & Hl0 & Hnew & Hp).
    rewrite Hrun in Hrun0. injection Hrun0 as <- <-. by exists out.
  - congruence.
Qed.

Lemma map_values_index f s s' :
  map_values f s = Ok s' -> s_index s' = s_index s.
Proof.
  unfold map_values. destruct (traverse f (s_values s)); [|done].
  by intros [= <-].
Qed.

Lemma set_column_index df k s :
  s_index s = index df -> index (set_column df k s) = index df.
Proof.
  intros Hs. unfold set_column.
  destruct (index df) eqn:E, (s_values s); simpl; congruence.
Qed.

Lemma derive_index k f df df' :
  (forall s s', f s = Ok s' -> s_index s' = s_index s) ->
  derive k f df = Ok df' -> index df' = index df.
Proof.
  intros Hf. unfold derive, get_column.
  destruct (lookup_column _ _) as [tcol|]; [|done]. cbn [mbind Result_bind].
  destruct (f _) as [v|] eqn:Ev; [|done]. cbn [mbind Result_bind].
  intros [= <-]. apply set_column_index. by rewrite (Hf _ _ Ev).
Qed.

(** The row labels go through [time_feature_frame] untouched, whatever
    the frame. *)
Lemma time_feature_frame_index df pred_labels out :
  time_feature_frame df pred_labels = Ok out -> index out = index df.
Proof.
  unfold time_feature_frame. intros Hout.
  destruct (drop_columns df _) as [d0|] eqn:E0; cbn [mbind Result_bind] in Hout; [|done].
  apply drop_columns_Ok in E0 as [_ ->].
  assert (Hidx : index (mkDataFrame (index df)
             (filter (fun c => c.1 ∉ ["序号"]) (columns df))) = index df) by done.
  revert Hidx Hout. generalize (mkDataFrame (index df)
             (filter (fun c => c.1 ∉ ["序号"]) (columns df))).
  intros d Hidx Hout.
  repeat match type of Hout with
  | (derive ?k ?f ?d ≫= _) = Ok _ =>
      let E := fresh "E" in
      destruct (derive k f d) as [?d|] eqn:E;
      cbn [mbind Result_bind] in Hout; [|done];
      apply derive_index in E;
      [ rewrite <-E in Hidx; clear E
      | first [ by apply map_values_index
              | intros s s'; unfold dt_dayofweek, floordiv;
                destruct (map_values _ s) as [x|] eqn:Ex; [|done];
                cbn [mbind Result_bind];
                intros Hy%map_values_index; apply map_values_index in Ex;
                congruence ] ]
  end.
  destruct (drop_columns _ ["时间"]) as [d10|] eqn:E10;
    cbn [mbind Result_bind] in Hout; [|done].
  apply drop_columns_Ok in E10 as [_ ->].
  destruct (truthy pred_labels).
  - apply drop_columns_Ok in Hout as [_ ->]. by cbn [index].
  - by injection Hout as <-.
Qed.

Lemma rectangular_feature_columns idx cols ts :
  rectangular (mkDataFrame idx cols) -> length ts = length idx ->
  rectangular (mkDataFrame idx (feature_columns cols ts)).
Proof.
  intros Hr Hlen. unfold feature_columns, calendar_columns. cbn [foldl fst snd].
  apply rectangular_filter.
  repeat (apply rectangular_upsert; [| by rewrite length_fmap]).
  by apply rectangular_filter.
Qed.

(** C6: on every input on which it succeeds, [time_feature] returns a frame
    with the row labels, hence the number of rows, of its input; and every
    column of the result has one cell per row if this holds of the input. *)
Theorem time_feature_preserves_rows w data df pred_labels l w' :
  heap w !! data = Some df ->
  time_feature data pred_labels w = Ok (l, w') ->
  exists out,
    heap w' !! l = Some out /\
    nrows out = nrows df /\
    index out = index df /\
    (rectangular df -> rectangular out).
Proof.
  intros Hd Hrun.
  destruct (time_feature_Ok _ _ _ _ _ _ Hd Hrun) as (out & Hout & Hl & _ & _).
  exists out. split; [done |].
  pose proof (time_feature_frame_index _ _ _ Hout) as Hidx.
  split; [unfold nrows; by rewrite Hidx |]. split; [done |].
  intros Hr.
  destruct (time_feature_frame_Ok _ _ _ Hr Hout) as (tcol & ts & _ & _ & _ & Hlen & Hres).
  assert (Hf : rectangular (mkDataFrame (index df) (feature_columns (columns df) ts))).
  { apply rectangular_feature_columns; [by destruct df | done]. }
  destruct (truthy pred_labels).
  - destruct Hres as [_ ->]. by apply rectangular_filter.
  - by subst out.
Qed.

End TimeFeatureShape.

Import Samples.

Lemma time_feature_preserves_rows_witness :
  exists l w' out,
    Notebook.time_feature (rng := rotating) test_dataset None (world 0) = Ok (l, w') /\
    Pandas.heap w' !! l = Some out /\
    Pandas.nrows out = 2%nat.
Proof.
  destruct (Notebook.time_feature (rng := rotating) test_dataset None (world 0))
    as [[l w']|e] eqn:Hrun; [| vm_compute in Hrun; discriminate].
  destruct (time_feature_preserves_rows (rng := rotating) (Samples.world 0) Samples.test_dataset
              Samples.test_table None l w' eq_refl Hrun)
    as (out & Hl & Hn & _).
  exists l, w', out. split; [reflexivity |]. split; [exact Hl | exact Hn].
Defined.

(** ** Failure on a timestamp that does not parse *)

Section TimeFeatureErrors.
Import Pandas Notebook.
Context {parser : DatetimeParser} {rng : RandomState}.
Implicit Types (w : World rng_state) (df out : DataFrame).

Lemma to_datetime_scalar_unparseable v :
  unparseable v -> to_datetime_scalar v = Raise (DateParseError v).
Proof. destruct v; simpl; try done; by intros ->. Qed.

Lemma to_datetime_scalar_Raise v e :
  to_datetime_scalar v = Raise e -> e = DateParseError v /\ unparseable v.
Proof.
  destruct v; simpl; try done;
    (destruct (parse_datetime _) eqn:E; [done |]; by intros [= <-]).
Qed.

(** [traverse] stops at the first cell that does not parse. *)
Lemma traverse_to_datetime_Raise tcol i v :
  tcol !! i = Some v -> unparseable v ->
  exists v', traverse to_datetime_scalar tcol = Raise (DateParseError v') /\
             v' ∈ tcol /\ unparseable v'.
Proof.
  revert i. induction tcol as [|x tcol IH]; intros i Hi Hv; [done |].
  simpl. destruct (to_datetime_scalar x) as [y|e] eqn:Ex.
  - destruct i as [|i]; simpl in Hi.
    + injection Hi as ->.
      by rewrite (to_datetime_scalar_unparseable _ Hv) in Ex.
    + destruct (IH i Hi Hv) as (v' & -> & Hin & Hu).
      exists v'. split; [done |]. split; [by right | done].
  - apply to_datetime_scalar_Raise in Ex as [-> Hu].
    exists x. split; [done |]. split; [left | done].
Qed.

Lemma derive_map_values_Raise idx cols k f tcol e :
  lookup_column "时间" cols = Some tcol ->
  traverse f tcol = Raise e ->
  derive k (map_values f) (mkDataFrame idx cols) = Raise e.
Proof.
  intros Ht Hf. unfold derive, get_column, map_values. cbn [columns].
  rewrite Ht. cbn [mbind Result_bind s_values]. by rewrite Hf.
Qed.

(** C8, as the code has it: on a frame with a timestamp column of which
    some cell does not parse, [time_feature] never returns a frame.  With
    the identifier column present it raises the parse error of an
    unparseable cell; without it, dropping the identifier fails first. *)
Theorem time_feature_unparseable w data df pred_labels tcol i v :
  heap w !! data = Some df ->
  lookup_column "时间" (columns df) = Some tcol ->
  tcol !! i = Some v ->
  unparseable v ->
  ("序号" ∈ column_names df ->
   exists v',
     time_feature data pred_labels w = Raise (DateParseError v') /\
     v' ∈ tcol /\ unparseable v') /\
  ("序号" ∉ column_names df ->
   time_feature data pred_labels w = Raise (KeyError ["序号"])).
Proof.
  destruct w as [h g]. cbn [heap]. intros Hd Ht Hi Hv.
  pose proof (time_feature_run h g data df pred_labels Hd) as Hr.
  split.
  - intros Hid.
    destruct (traverse_to_datetime_Raise _ _ _ Hi Hv) as (v' & Htr & Hin & Hu).
    exists v'. split; [| done].
    assert (Hf : time_feature_frame df pred_labels = Raise (DateParseError v')).
    { unfold time_feature_frame.
      rewrite drop_columns_Forall by (by apply Forall_singleton).
      cbn [mbind Result_bind]. unfold to_datetime.
      rewrite (derive_map_values_Raise _ _ _ _ tcol (DateParseError v')); [done | | done].
      pose proof (lookup_column_filter (fun k => k ∉ ["序号"]) "时间" (columns df))
        as Hlk.
      cbv beta in Hlk. rewrite Hlk.
      by rewrite decide_True by (by intros ?%list_elem_of_singleton). }
    by rewrite Hf in Hr.
  - intros Hid.
    assert (Hf : time_feature_frame df pred_labels = Raise (KeyError ["序号"])).
    { unfold time_feature_frame, drop_columns.
      rewrite filter_cons_True by done. by rewrite filter_nil. }
    by rewrite Hf in Hr.
Qed.

(** C10: an empty list of labels is as good as none. *)
Theorem time_feature_empty_labels w data :
  time_feature data (Some []) w = time_feature data None w.
Proof. reflexivity. Qed.

End TimeFeatureErrors.

(** C8 as stated fails on a frame without identifier column: the error
    is the missing column, not the timestamp. *)
Lemma time_feature_unparseable_counterexample :
  Pandas.unparseable (VStr "yesterday") /\
  Notebook.time_feature (rng := rotating) 1%positive None
    (Pandas.mkWorld {[ 1%positive := no_id_table ]} 0%nat)
  = Raise (KeyError ["序号"]).
Proof. split; reflexivity. Qed.

Lemma time_feature_unparseable_witness :
  exists v',
    Notebook.time_feature (rng := rotating) 1%positive None
      (Pandas.mkWorld {[ 1%positive := broken_table ]} 0%nat)
    = Raise (DateParseError v').
Proof.
  destruct (time_feature_unparseable (rng := rotating)
              (Pandas.mkWorld {[ 1%positive := broken_table ]} 0%nat)
              1%positive broken_table None
              (VStr <$> ["2023-07-22 09:15:00"; "yesterday"; "2023-07-23 10:30:00"])
              1%nat (VStr "yesterday"))
    as [Hraise _].
  - reflexivity.
  - reflexivity.
  - reflexivity.
  - reflexivity.
  - destruct Hraise as (v' & Hrun & _).
    + by apply (bool_decide_unpack _).
    + by exists v'.
Defined.

(** ** The weekend flag *)

Section Weekend.
Import Pandas Notebook.
Context {parser : DatetimeParser} {rng : RandomState}.
Implicit Types (w : World rng_state) (df out : DataFrame).

Lemma dayofweek_range y m d : 0 <= Calendar.dayofweek y m d <= 6.
Proof.
  unfold Calendar.dayofweek.
  match goal with |- 0 <= ?x mod 7 <= 6 =>
    pose proof (Z.mod_pos_bound x 7 ltac:(lia)) end.
  lia.
Qed.

(** Floor division by 6 of a day of the week is 1 on Sunday only. *)
Lemma floordiv_6 d : 0 <= d <= 6 -> d / 6 = if decide (d = 6) then 1 else 0.
Proof.
  intros Hd. case_decide as E.
  - by subst.
  - apply Z.div_small. lia.
Qed.

Lemma lookup_feature_columns cols ts k :
  k ∈ derived_names ->
  lookup_column k (feature_columns cols ts)
  = lookup_column k (calendar_columns ts).
Proof.
  intros Hk. unfold feature_columns.
  pose proof (lookup_column_filter (fun k => k ∉ ["时间"]) k) as E2.
  cbv beta in E2. rewrite E2. clear E2.
  unfold derived_names in Hk. unfold calendar_columns. cbn [foldl fst snd].
  repeat (apply elem_of_cons in Hk as [-> | Hk];
    [ rewrite decide_True by (by intros ?%list_elem_of_singleton);
      repeat first [ rewrite lookup_upsert_eq | rewrite lookup_upsert_ne by done ];
      reflexivity |]).
  by apply elem_of_nil in Hk.
Qed.

Lemma lookup_stripped_feature_columns cols ts k (labels : list string) :
  k ∈ derived_names -> k ∉ labels ->
  lookup_column k
    (filter (fun c => c.1 ∉ labels) (feature_columns cols ts))
  = lookup_column k (calendar_columns ts).
Proof.
  intros Hk Hl.
  pose proof (lookup_column_filter (fun k => k ∉ labels) k
                (feature_columns cols ts)) as E1.
  cbv beta in E1. rewrite E1, decide_True by done.
  by apply lookup_feature_columns.
Qed.

(** C3: on a successful run, for the timestamp [t] of each row, the
    [dayofweek] cell is the day of the week of [t], between 0 (Monday) and 6
    (Sunday), and the [is_weekend] cell is 1 if that day is 6 and 0
    otherwise, a Saturday included.  (A column named among the labels to
    strip is of course not there to look at.) *)
Theorem is_weekend_sunday_only w data df pred_labels l w' :
  heap w !! data = Some df ->
  rectangular df ->
  time_feature data pred_labels w = Ok (l, w') ->
  exists out tcol ts,
    heap w' !! l = Some out /\
    lookup_column "时间" (columns df) = Some tcol /\
    traverse to_datetime_scalar tcol = Ok (VTime <$> ts) /\
    length ts = nrows df /\
    ("dayofweek" ∉ default [] pred_labels ->
     lookup_column "dayofweek" (columns out)
     = Some ((fun t => VInt (ts_dayofweek t)) <$> ts)) /\
    ("is_weekend" ∉ default [] pred_labels ->
     lookup_column "is_weekend" (columns out)
     = Some ((fun t => VInt (if decide (ts_dayofweek t = 6) then 1 else 0))
               <$> ts)) /\
    Forall (fun t => 0 <= ts_dayofweek t <= 6 /\
                     (ts_dayofweek t = 5 ->
                      (if decide (ts_dayofweek t = 6) then 1 else 0) = 0)) ts.
Proof.
  intros Hd Hr Hrun.
  destruct (time_feature_Ok _ _ _ _ _ _ Hd Hrun) as (out & Hout & Hl & _ & _).
  destruct (time_feature_frame_Ok _ _ _ Hr Hout)
    as (tcol & ts & _ & Ht & Htr & Hlen & Hres).
  exists out, tcol, ts. split; [done |].
  pose proof (lookup_column_filter (fun k => k ∉ ["序号"]) "时间" (columns df))
    as Hlk.
  cbv beta in Hlk. rewrite Hlk, decide_True in Ht
    by (by intros ?%list_elem_of_singleton).
  split; [done |]. split; [done |]. split; [done |].
  assert (Hcols : forall k, k ∈ derived_names -> k ∉ default [] pred_labels ->
            lookup_column k (columns out) = lookup_column k (calendar_columns ts)).
  { intros k Hk Hn. destruct (truthy pred_labels).
    - destruct Hres as [_ ->]. cbn [columns].
      by apply lookup_stripped_feature_columns.
    - subst out. cbn [columns]. by apply lookup_feature_columns. }
  split; [| split].
  - intros Hn. rewrite Hcols by (done || by apply (bool_decide_unpack _)).
    reflexivity.
  - intros Hn. rewrite Hcols by (done || by apply (bool_decide_unpack _)).
    transitivity (Some ((fun t => VInt (ts_dayofweek t / 6)) <$> ts));
      [reflexivity |].
    f_equal. apply list_fmap_ext. intros _ t _. f_equal.
    apply floordiv_6, dayofweek_range.
  - apply Forall_forall. intros t _. split; [apply dayofweek_range |].
    intros ->. reflexivity.
Qed.

End Weekend.

Lemma is_weekend_sunday_only_witness :
  exists l w' out ts,
    Notebook.time_feature (rng := rotating) test_dataset None (world 0) = Ok (l, w') /\
    Pandas.heap w' !! l = Some out /\
    Pandas.lookup_column "dayofweek" (Pandas.columns out)
    = Some ((fun t => VInt (Pandas.ts_dayofweek t)) <$> ts) /\
    Pandas.lookup_column "is_weekend" (Pandas.columns out)
    = Some ((fun t => VInt (if decide (Pandas.ts_dayofweek t = 6) then 1 else 0))
              <$> ts).
Proof.
  destruct (Notebook.time_feature (rng := rotating) test_dataset None (world 0))
    as [[l w']|e] eqn:Hrun; [| vm_compute in Hrun; discriminate].
  destruct (is_weekend_sunday_only (rng := rotating) (world 0) test_dataset
              test_table None l w' eq_refl) as
    (out & tcol & ts & Hl & _ & _ & _ & Hdow & Hwe & _).
  - repeat constructor.
  - exact Hrun.
  - exists l, w', out, ts. split; [done |]. split; [done |].
    split; [apply Hdow | apply Hwe]; apply not_elem_of_nil.
Defined.

(** The sample test table holds a Saturday and a Sunday. *)
Example is_weekend_saturday_sunday :
  match Notebook.time_feature (rng := rotating) test_dataset None (world 0) with
  | Ok (l, w') =>
      out ← Pandas.heap w' !! l;
      Some (Pandas.lookup_column "dayofweek" (Pandas.columns out),
            Pandas.lookup_column "is_weekend" (Pandas.columns out))
  | Raise _ => None
  end = Some (Some [VInt 5; VInt 6], Some [VInt 0; VInt 1]).
Proof. vm_compute. reflexivity. Qed.

(** ** The number of columns of the result *)

Section ColumnCount.
Import Pandas Notebook.
Context {parser : DatetimeParser} {rng : RandomState}.
Implicit Types (w : World rng_state) (df out : DataFrame).

(** Dropping names that all occur in a duplicate-free list shortens it by
    the number of distinct names. *)
Lemma length_filter_strip (l ks : list string) :
  NoDup l -> Forall (fun k => k ∈ l) ks ->
  (length (filter (fun k => k ∉ ks) l) + length (remove_dups ks))%nat = length l.
Proof.
  intros Hl Hks.
  rewrite <-(length_Permutation_proper _ _ (filter_app_complement (fun k => k ∉ ks) l)).
  rewrite length_app. f_equal.
  apply length_Permutation_proper, NoDup_Permutation.
  - apply NoDup_remove_dups.
  - by apply NoDup_filter.
  - intros k. rewrite elem_of_remove_dups, list_elem_of_filter.
    rewrite Forall_forall in Hks. split.
    + intros Hk. split; [tauto | by apply Hks].
    + intros [Hk _]. by apply dec_stable.
Qed.

Lemma upsert_names_new k vs (cols : list (string * list Value)) :
  k ∉ cols.*1 -> (upsert k vs cols).*1 = (cols.*1 ++ [k])%list.
Proof. intros Hk. by rewrite upsert_names, decide_False. Qed.

Lemma upsert_names_old k vs (cols : list (string * list Value)) :
  k ∈ cols.*1 -> (upsert k vs cols).*1 = cols.*1.
Proof. intros Hk. by rewrite upsert_names, decide_True. Qed.

Lemma foldl_upsert_names (kvs cols : list (string * list Value)) :
  NoDup kvs.*1 -> Forall (fun k => k ∉ cols.*1) kvs.*1 ->
  (foldl (fun c kv => upsert kv.1 kv.2 c) cols kvs).*1 = (cols.*1 ++ kvs.*1)%list.
Proof.
  revert cols. induction kvs as [|[k v] kvs IH]; intros cols Hnd Hnew; csimpl.
  - by rewrite app_nil_r.
  - csimpl in *. apply NoDup_cons in Hnd as [Hk Hnd].
    apply Forall_cons in Hnew as [Hkc Hnew].
    rewrite IH; [| done |].
    + rewrite upsert_names_new by done. by rewrite <-app_assoc.
    + rewrite upsert_names_new by done.
      rewrite Forall_forall in Hnew |- *. intros k' Hk'.
      rewrite not_elem_of_app, not_elem_of_cons. split; [by apply Hnew |].
      split; [by intros -> | apply not_elem_of_nil].
Qed.

(** Without a clash of names, the result has the input's columns less the
    identifier and the timestamp, then the eight derived ones. *)
Lemma feature_columns_names cols ts :
  "时间" ∈ cols.*1 ->
  Forall (fun k => k ∉ cols.*1) derived_names ->
  (feature_columns cols ts).*1
  = (filter (fun k => k ∉ ["时间"]) (filter (fun k => k ∉ ["序号"]) cols.*1)
     ++ derived_names)%list.
Proof.
  intros Ht Hnew. unfold feature_columns.
  pose proof (filter_names (fun k => k ∉ ["时间"])) as E. cbv beta in E.
  rewrite E. clear E.
  pose proof (filter_names (fun k => k ∉ ["序号"]) cols) as E. cbv beta in E.
  assert (Hb : "时间" ∈ (filter (fun c => c.1 ∉ ["序号"]) cols).*1).
  { rewrite E. apply list_elem_of_filter. split; [| done].
    by intros ?%list_elem_of_singleton. }
  rewrite foldl_upsert_names.
  - rewrite upsert_names_old by done. rewrite E, filter_app. f_equal.
  - by apply (bool_decide_unpack _).
  - rewrite upsert_names_old by done. rewrite E.
    change ((calendar_columns ts).*1) with derived_names.
    rewrite Forall_forall in Hnew |- *. intros k Hk [_ Hin]%list_elem_of_filter.
    by apply (Hnew k).
Qed.

Lemma NoDup_feature_columns cols ts :
  NoDup cols.*1 -> "时间" ∈ cols.*1 ->
  Forall (fun k => k ∉ cols.*1) derived_names ->
  NoDup (feature_columns cols ts).*1.
Proof.
  intros Hnd Ht Hnew. rewrite feature_columns_names by done.
  apply NoDup_app. split; [by do 2 apply NoDup_filter |]. split.
  - intros k [_ [_ Hk]%list_elem_of_filter]%list_elem_of_filter Hd.
    rewrite Forall_forall in Hnew. by apply (Hnew k).
  - by apply (bool_decide_unpack _).
Qed.

Lemma length_feature_columns cols ts :
  NoDup cols.*1 -> "序号" ∈ cols.*1 -> "时间" ∈ cols.*1 ->
  Forall (fun k => k ∉ cols.*1) derived_names ->
  (length (feature_columns cols ts) + 2)%nat = (length cols + 8)%nat.
Proof.
  intros Hnd Hid Ht Hnew.
  rewrite <-(length_fmap fst (feature_columns cols ts)), <-(length_fmap fst cols).
  rewrite feature_columns_names, length_app by done.
  pose proof (length_filter_strip cols.*1 ["序号"] Hnd) as H1.
  pose proof (length_filter_strip (filter (fun k => k ∉ ["序号"]) cols.*1) ["时间"]) as H2.
  rewrite Forall_singleton in H1, H2.
  specialize (H1 Hid).
  assert (Hin : "时间" ∈ filter (fun k => k ∉ ["序号"]) cols.*1).
  { apply list_elem_of_filter. split; [| done]. by intros ?%list_elem_of_singleton. }
  specialize (H2 (NoDup_filter _ _ Hnd) Hin).
  change (length (remove_dups ["时间"])) with 1%nat in H2.
  change (length (remove_dups ["序号"])) with 1%nat in H1.
  change (length derived_names) with 8%nat. lia.
Qed.

(** C7, as the code has it: for a well-formed frame none of whose columns
    bears the name of a derived feature, a successful run returns as many
    columns as the input has, minus 2, minus the number of distinct labels
    stripped, plus 8. *)
Theorem time_feature_column_count w data df pred_labels l w' :
  heap w !! data = Some df ->
  wf df ->
  Forall (fun k => k ∉ column_names df) derived_names ->
  time_feature data pred_labels w = Ok (l, w') ->
  exists out,
    heap w' !! l = Some out /\
    Z.of_nat (ncols out)
    = Z.of_nat (ncols df) - 2 - Z.of_nat (labels_stripped pred_labels) + 8.
Proof.
  intros Hd [Hnd Hr] Hnew Hrun.
  destruct (time_feature_Ok _ _ _ _ _ _ Hd Hrun) as (out & Hout & Hl & _ & _).
  destruct (time_feature_frame_Ok _ _ _ Hr Hout)
    as (tcol & ts & Hid & Ht & _ & _ & Hres).
  exists out. split; [done |].
  assert (Htime : "时间" ∈ column_names df).
  { pose proof (lookup_column_filter (fun k => k ∉ ["序号"]) "时间" (columns df))
      as Hlk.
    cbv beta in Hlk. rewrite Hlk in Ht. case_decide; [| done].
    apply lookup_column_is_Some. by eexists. }
  pose proof (length_feature_columns (columns df) ts Hnd Hid Htime Hnew) as Hlen.
  unfold ncols, labels_stripped.
  destruct (truthy pred_labels).
  - destruct Hres as [Hall ->]. cbn [columns].
    pose proof (length_filter_strip (feature_columns (columns df) ts).*1
                  (default [] pred_labels)
                  (NoDup_feature_columns _ ts Hnd Htime Hnew) Hall) as Hs.
    pose proof (filter_names (fun k => k ∉ default [] pred_labels)
                  (feature_columns (columns df) ts)) as E.
    cbv beta in E. rewrite <-E, !length_fmap in Hs. lia.
  - subst out. cbn [columns]. lia.
Qed.

End ColumnCount.

(** C7 as stated fails on a table that already has a column [month]:
    three columns in, eight out, where the formula gives nine. *)
Lemma time_feature_column_count_counterexample :
  Pandas.wf month_table /\
  match Notebook.time_feature (rng := rotating) 1%positive None
          (Pandas.mkWorld {[ 1%positive := month_table ]} 0%nat) with
  | Ok (l, w') => Pandas.ncols <$> Pandas.heap w' !! l
  | Raise _ => None
  end = Some 8%nat /\
  Z.of_nat 8 <> Z.of_nat (Pandas.ncols month_table) - 2 - 0 + 8.
Proof.
  split; [| split].
  - split; [by apply (bool_decide_unpack _) | repeat constructor].
  - vm_compute. reflexivity.
  - vm_compute. discriminate.
Qed.

Lemma time_feature_column_count_witness :
  exists l w' out,
    Notebook.time_feature (rng := rotating) test_dataset None (world 0) = Ok (l, w') /\
    Pandas.heap w' !! l = Some out /\
    Z.of_nat (Pandas.ncols out) = 2 - 2 - 0 + 8.
Proof.
  destruct (Notebook.time_feature (rng := rotating) test_dataset None (world 0))
    as [[l w']|e] eqn:Hrun; [| vm_compute in Hrun; discriminate].
  destruct (time_feature_column_count (rng := rotating) (world 0) test_dataset
              test_table None l w' eq_refl) as (out & Hl & Hn).
  - split; [by apply (bool_decide_unpack _) | repeat constructor].
  - by apply (bool_decide_unpack _).
  - exact Hrun.
  - exists l, w', out. split; [reflexivity |]. split; [exact Hl | exact Hn].
Defined.

(** ** The hold-out split *)

Section Split.
Import Pandas Sklearn.
Context {rng : RandomState}.
Implicit Types (w : World rng_state) (df : DataFrame) (ps : list nat).

Lemma take_positions_Forall2 {A} (l : list A) ps l' :
  take_positions l ps = Ok l' <-> Forall2 (fun p x => l !! p = Some x) ps l'.
Proof.
  unfold take_positions. rewrite traverse_Forall2.
  split; intros HF; apply (Forall2_impl _ _ _ _ HF); intros p x.
  - by destruct (l !! p); intros [= ->].
  - by intros ->.
Qed.

Lemma traverse_Ok {A B} (f : A -> Result B) (l : list A) :
  Forall (fun x => exists y, f x = Ok y) l -> exists l', traverse f l = Ok l'.
Proof.
  induction 1 as [|x l [y Hy] _ [l' IH]]; simpl.
  - by exists [].
  - rewrite Hy, IH. by eexists.
Qed.

Lemma take_positions_Ok {A} (l : list A) ps :
  Forall (fun p => p < length l)%nat ps -> exists l', take_positions l ps = Ok l'.
Proof.
  intros Hps. apply traverse_Ok. eapply Forall_impl; [exact Hps |].
  intros p Hp. cbv beta. destruct (lookup_lt_is_Some_2 l p Hp) as [x ->]. by exists x.
Qed.

(** Selecting rows by position: as many rows as positions, the [j]-th
    being the row of the frame at the [j]-th position. *)
Lemma iloc_Ok df ps :
  rectangular df -> Forall (fun p => p < nrows df)%nat ps ->
  exists d',
    iloc df ps = Ok d' /\
    nrows d' = length ps /\
    forall j p, ps !! j = Some p -> row d' j = row df p.
Proof.
  intros Hr Hps. unfold iloc.
  destruct (take_positions_Ok (index df) ps Hps) as [idx' Hidx]. rewrite Hidx.
  cbn [mbind Result_bind].
  destruct (traverse_Ok
    (fun c : string * list Value => vs ← take_positions c.2 ps; Ok (c.1, vs))
    (columns df)) as [cols' Hcols].
  { eapply Forall_impl; [exact Hr |]. intros c Hc. cbv beta.
    destruct (take_positions_Ok c.2 ps) as [vs ->]; [by rewrite Hc |].
    by eexists. }
  rewrite Hcols. cbn [mbind Result_bind].
  eexists. split; [reflexivity |].
  apply take_positions_Forall2 in Hidx.
  split; [unfold nrows; cbn [index]; symmetry; by eapply Forall2_length |].
  intros j p Hj. unfold row. cbn [index columns].
  destruct (Forall2_lookup_l _ _ _ _ _ Hidx Hj) as (label & -> & ->).
  cbn [mbind option_bind]. f_equal.
  apply Forall2_mapM_ext.
  apply traverse_Forall2 in Hcols. apply Forall2_flip.
  eapply Forall2_impl; [exact Hcols |]. intros c c'. cbv beta.
  destruct (take_positions c.2 ps) as [vs|] eqn:E; [|done].
  cbn [mbind Result_bind]. intros [= <-]. cbn [snd].
  apply take_positions_Forall2 in E.
  by destruct (Forall2_lookup_l _ _ _ _ _ E Hj) as (x & -> & ->).
Qed.

Lemma row_is_Some df p :
  rectangular df -> (p < nrows df)%nat -> is_Some (row df p).
Proof.
  intros Hr Hp. unfold row.
  destruct (lookup_lt_is_Some_2 (index df) p Hp) as [label ->].
  cbn [mbind option_bind].
  destruct (mapM_is_Some_2 (fun c : string * list Value => c.2 !! p) (columns df))
    as [cells ->]; [| by eexists].
  eapply Forall_impl; [exact Hr |]. intros c Hc. cbv beta.
  apply lookup_lt_is_Some_2. by rewrite Hc.
Qed.

(** The number of validation rows for a fifth: the ceiling of [n / 5]. *)
Lemma Qceiling_fifth (n : nat) :
  Qceiling ((2 # 10) * inject_Z (Z.of_nat n)) = (Z.of_nat n + 4) / 5.
Proof.
  unfold Qceiling, Qfloor, Qopp, Qmult, inject_Z. cbn [Qnum Qden].
  rewrite Pos.mul_1_r. change (Z.pos 10) with 10.
  set (q := (Z.of_nat n + 4) / 5).
  assert (Hq : 5 * q <= Z.of_nat n + 4 < 5 * q + 5).
  { pose proof (Z.div_mod (Z.of_nat n + 4) 5 ltac:(lia)).
    pose proof (Z.mod_pos_bound (Z.of_nat n + 4) 5 ltac:(lia)). unfold q. lia. }
  cut (- (2 * Z.of_nat n) / 10 = - q); [lia |].
  symmetry. apply (Z.div_unique _ _ _ (10 * q - 2 * Z.of_nat n)); lia.
Qed.

Lemma ceiling_fifth (n : nat) :
  Z.to_nat (Qceiling ((2 # 10) * inject_Z (Z.of_nat n))) = ((n + 4) / 5)%nat.
Proof.
  rewrite Qceiling_fifth. apply Nat2Z.inj.
  rewrite Nat2Z.inj_div, Nat2Z.inj_add, Z2Nat.id; [done |].
  apply Z.div_pos; lia.
Qed.

Lemma drawn_permutation_Permutation random_state n g :
  (drawn_permutation random_state n g).1 ≡ₚ seq 0 n.
Proof. destruct random_state; apply permutation_Permutation. Qed.

(** A run of [train_test_split]: the two frames of [split_frames] along
    the permutation drawn, each in a new object. *)
Lemma train_test_split_run h g data df test_size random_state :
  h !! data = Some df ->
  train_test_split data test_size random_state (mkWorld h g)
  = match split_frames df test_size
            (drawn_permutation random_state (nrows df) g).1 with
    | Ok (dtr, dva) =>
        let train := fresh (dom h) in
        let test := fresh (dom (<[train := dtr]> h)) in
        Ok ((train, test),
            mkWorld (<[test := dva]> (<[train := dtr]> h))
              (drawn_permutation random_state (nrows df) g).2)
    | Raise e => Raise e
    end.
Proof.
  intros Hd. unfold train_test_split, split_frames.
  rewrite run_bind, (run_read _ _ df) by done.
  rewrite run_bind, run_lift.
  destruct (_validate_shuffle_split _ _) as [[n_train n_test]|e];
    cbn [mbind Result_bind]; [|done].
  rewrite run_bind. unfold draw_permutation at 1. cbn [global_rng heap].
  destruct (drawn_permutation random_state (nrows df) g) as [p g'].
  cbn [fst snd].
  rewrite run_bind, run_lift.
  destruct (iloc df (ind_train _ _ _)) as [dtr|e]; cbn [mbind Result_bind]; [|done].
  rewrite run_bind, run_lift.
  destruct (iloc df (ind_test _ _)) as [dva|e]; cbn [mbind Result_bind]; [|done].
  reflexivity.
Qed.

Lemma validate_fifth (n : nat) :
  (2 <= n)%nat ->
  _validate_shuffle_split n (2 # 10)
  = Ok ((n - (n + 4) / 5)%nat, ((n + 4) / 5)%nat).
Proof.
  intros Hn. unfold _validate_shuffle_split.
  change (Qle_bool (2 # 10) 0 || Qle_bool 1 (2 # 10)) with false.
  cbv iota. rewrite ceiling_fifth.
  assert (5 * ((n + 4) / 5) <= n + 4)%nat by (apply Nat.Div0.mul_div_le).
  rewrite decide_False by lia. reflexivity.
Qed.

(** C1, as the code has it: on a frame of [N >= 2] rows the split with a
    fifth held out succeeds; the validation part has [ceil(N / 5)] rows,
    the training part the [N - ceil(N / 5)] others; the rows of the two
    parts are the rows of the frame at positions that, put together, are
    the positions [0 .. N - 1] each exactly once. *)
Theorem train_test_split_partition w data df random_state :
  heap w !! data = Some df ->
  rectangular df ->
  (2 <= nrows df)%nat ->
  exists train valid w' dtr dva pt pv,
    train_test_split data (2 # 10) random_state w = Ok ((train, valid), w') /\
    heap w' !! train = Some dtr /\ heap w' !! valid = Some dva /\
    train <> valid /\
    Z.of_nat (nrows dva)
    = Qceiling ((2 # 10) * inject_Z (Z.of_nat (nrows df))) /\
    nrows dtr = (nrows df - nrows dva)%nat /\
    length pv = nrows dva /\ length pt = nrows dtr /\
    (pv ++ pt)%list ≡ₚ seq 0 (nrows df) /\
    (forall j p, pv !! j = Some p -> is_Some (row df p) /\ row dva j = row df p) /\
    (forall j p, pt !! j = Some p -> is_Some (row df p) /\ row dtr j = row df p).
Proof.
  destruct w as [h g]. cbn [heap]. intros Hd Hr HN.
  rewrite (train_test_split_run _ _ _ df) by done.
  unfold split_frames. rewrite validate_fifth by done.
  cbn [mbind Result_bind].
  pose proof (drawn_permutation_Permutation random_state (nrows df) g) as Hp.
  destruct (drawn_permutation random_state (nrows df) g) as [p g'].
  cbn [fst snd] in *.
  set (n_test := ((nrows df + 4) / 5)%nat).
  assert (Hle : (n_test <= nrows df)%nat).
  { assert (5 * n_test <= nrows df + 4)%nat by (apply Nat.Div0.mul_div_le). lia. }
  assert (Hlen : length p = nrows df) by (by rewrite Hp, length_seq).
  assert (Hin : Forall (fun i => i < nrows df)%nat p).
  { apply Forall_forall. intros i Hi. rewrite Hp in Hi.
    apply elem_of_seq in Hi. lia. }
  assert (Htrain : ind_train (nrows df - n_test) n_test p = drop n_test p).
  { unfold ind_train. apply take_ge. rewrite length_drop. lia. }
  rewrite Htrain. unfold ind_test.
  destruct (iloc_Ok df (drop n_test p) Hr) as (dtr & -> & Hntr & Hrtr).
  { by apply Forall_drop. }
  destruct (iloc_Ok df (take n_test p) Hr) as (dva & -> & Hnva & Hrva).
  { by apply Forall_take. }
  cbn [mbind Result_bind]. cbv zeta.
  rewrite length_take_le in Hnva by lia. rewrite length_drop in Hntr.
  exists (fresh (dom h)), (fresh (dom (<[fresh (dom h) := dtr]> h))).
  eexists. exists dtr, dva, (drop n_test p), (take n_test p).
  split; [reflexivity |]. cbn [heap].
  assert (Hne : fresh (dom h) <> fresh (dom (<[fresh (dom h) := dtr]> h))).
  { intros E.
    pose proof (is_fresh (dom (<[fresh (dom h) := dtr]> h))) as Hf.
    rewrite <-E in Hf. apply Hf. rewrite dom_insert. set_solver. }
  split; [by rewrite lookup_insert_ne, lookup_insert_eq |].
  split; [apply lookup_insert_eq |]. split; [done |].
  split.
  { rewrite Hnva, Qceiling_fifth. unfold n_test.
    by rewrite Nat2Z.inj_div, Nat2Z.inj_add. }
  split; [lia |]. split; [by rewrite length_take_le by lia |].
  split; [by rewrite length_drop |].
  split; [by rewrite take_drop |].
  split.
  - intros j p0 Hj. split; [| by apply Hrva].
    apply row_is_Some; [done |].
    apply list_elem_of_lookup_2 in Hj.
    pose proof (Forall_take _ n_test p Hin) as Ht.
    rewrite Forall_forall in Ht. by apply Ht.
  - intros j p0 Hj. split; [| by apply Hrtr].
    apply row_is_Some; [done |].
    apply list_elem_of_lookup_2 in Hj.
    pose proof (Forall_drop _ n_test p Hin) as Ht.
    rewrite Forall_forall in Ht. by apply Ht.
Qed.

(** C2: two invocations of the splitter with the same seed, on the same
    frame and with the same fraction, give identical train and validation
    frames, whatever the stores and the states of the process-wide
    generator they start from; the generator is neither read nor
    advanced. *)
Theorem train_test_split_seeded w1 w2 data1 data2 df test_size seed :
  heap w1 !! data1 = Some df ->
  heap w2 !! data2 = Some df ->
  match train_test_split data1 test_size (Some seed) w1,
        train_test_split data2 test_size (Some seed) w2 with
  | Ok ((tr1, va1), w1'), Ok ((tr2, va2), w2') =>
      is_Some (heap w1' !! tr1) /\ is_Some (heap w1' !! va1) /\
      heap w1' !! tr1 = heap w2' !! tr2 /\
      heap w1' !! va1 = heap w2' !! va2 /\
      global_rng w1' = global_rng w1 /\ global_rng w2' = global_rng w2
  | Raise e1, Raise e2 => e1 = e2
  | _, _ => False
  end.
Proof.
  destruct w1 as [h1 g1], w2 as [h2 g2]. cbn [heap global_rng]. intros H1 H2.
  rewrite (train_test_split_run h1 g1 _ df), (train_test_split_run h2 g2 _ df)
    by done.
  cbn [drawn_permutation fst snd].
  destruct (split_frames df test_size _) as [[dtr dva]|e]; [| done].
  cbv zeta. cbn [heap global_rng].
  assert (Hne : forall (h : gmap loc DataFrame),
            fresh (dom h) <> fresh (dom (<[fresh (dom h) := dtr]> h))).
  { intros h E.
    pose proof (is_fresh (dom (<[fresh (dom h) := dtr]> h))) as Hf.
    rewrite <-E in Hf. apply Hf. rewrite dom_insert. set_solver. }
  rewrite !lookup_insert_eq.
  rewrite !(lookup_insert_ne _ _ _ _ (not_eq_sym (Hne _))), !lookup_insert_eq.
  by repeat split.
Qed.

End Split.

Lemma train_test_split_partition_witness :
  exists train valid w' dtr dva,
    Sklearn.train_test_split (rng := rotating) train_dataset (2 # 10) None (world 0)
    = Ok ((train, valid), w') /\
    Pandas.heap w' !! train = Some dtr /\ Pandas.heap w' !! valid = Some dva /\
    Z.of_nat (Pandas.nrows dva) = Qceiling ((2 # 10) * inject_Z 5) /\
    Pandas.nrows dtr = (5 - Pandas.nrows dva)%nat.
Proof.
  destruct (train_test_split_partition (rng := rotating) (world 0) train_dataset
              train_table None eq_refl)
    as (train & valid & w' & dtr & dva & pt & pv & Hrun & Htr & Hva & _ & Hn & Hm & _).
  - repeat constructor.
  - repeat constructor.
  - exists train, valid, w', dtr, dva.
    split; [exact Hrun |]. split; [exact Htr |]. split; [exact Hva |].
    split; [exact Hn | exact Hm].
Defined.

(** C1 as stated fails on six rows: the validation part has two rows,
    where [round(0.2 * 6)] is 1; and one row cannot be split at all. *)
Lemma train_test_split_partition_counterexample :
  match Sklearn.train_test_split (rng := rotating) 1%positive (2 # 10) None
          (Pandas.mkWorld {[ 1%positive := six_rows ]} 0%nat) with
  | Ok ((train, valid), w') => Pandas.nrows <$> Pandas.heap w' !! valid
  | Raise _ => None
  end = Some 2%nat /\
  Sklearn.round_half_even ((2 # 10) * inject_Z 6) = 1 /\
  Sklearn._validate_shuffle_split 1 (2 # 10)
  = Raise (ValueError "the resulting train set will be empty").
Proof. repeat split; vm_compute; reflexivity. Qed.

Lemma train_test_split_seeded_witness :
  match Sklearn.train_test_split (rng := rotating) train_dataset (2 # 10)
          (Some 3) (world 0),
        Sklearn.train_test_split (rng := rotating) train_dataset (2 # 10)
          (Some 3) (world 7) with
  | Ok ((tr1, va1), w1'), Ok ((tr2, va2), w2') =>
      Pandas.heap w1' !! tr1 = Pandas.heap w2' !! tr2 /\
      Pandas.heap w1' !! va1 = Pandas.heap w2' !! va2
  | _, _ => False
  end.
Proof.
  pose proof (train_test_split_seeded (rng := rotating) (world 0) (world 7)
                train_dataset train_dataset train_table (2 # 10) 3
                eq_refl eq_refl) as Hs.
  destruct (Sklearn.train_test_split (rng := rotating) train_dataset (2 # 10)
              (Some 3) (world 0)) as [[[tr1 va1] w1']|e1] eqn:E1;
    [| vm_compute in E1; discriminate].
  destruct (Sklearn.train_test_split (rng := rotating) train_dataset (2 # 10)
              (Some 3) (world 7)) as [[[tr2 va2] w2']|e2]; [| exact Hs].
  destruct Hs as (_ & _ & Ht & Hv & _). split; [exact Ht | exact Hv].
Defined.

(** Without a seed the split draws from the process-wide generator and
    advances it: on the sample generator a second invocation in the same
    process holds out another row. *)
Example train_test_split_unseeded_draws :
  exists first second,
    match Sklearn.train_test_split (rng := rotating) train_dataset (2 # 10)
            None (world 0) with
    | Ok ((_, va1), w1) =>
        match Sklearn.train_test_split (rng := rotating) train_dataset
                (2 # 10) None w1 with
        | Ok ((_, va2), w2) =>
            Some (Pandas.index <$> Pandas.heap w1 !! va1,
                  Pandas.index <$> Pandas.heap w2 !! va2)
        | Raise _ => None
        end
    | Raise _ => None
    end = Some (Some first, Some second) /\
    first <> second.
Proof.
  exists [0], [1]. split; [vm_compute; reflexivity | discriminate].
Qed.

(** ** The LightGBM configuration and the iteration used to predict *)

Section Training.
Import Pandas LightGBM Notebook.
Context {learner : Learner}.

(** C9, as the code has it: under either learning rate, the configuration
    has 32 leaves at most, L2 regularization 10, feature fraction 0.8,
    bagging fraction 0.8 every 4 iterations; [min_child_weight] sets the
    minimal sum of hessians in a leaf to 5, and the minimal number of
    samples in a leaf keeps its default, 20. *)
Theorem lgb_params_resolved (learning_rate : Q) :
  let config := resolve (lgb_params_with learning_rate) in
  config !! "num_leaves" = Some (PInt 32) /\
  config !! "lambda_l2" = Some (PInt 10) /\
  config !! "feature_fraction" = Some (PFloat (8 # 10)) /\
  config !! "bagging_fraction" = Some (PFloat (8 # 10)) /\
  config !! "bagging_freq" = Some (PInt 4) /\
  config !! "learning_rate" = Some (PFloat learning_rate) /\
  config !! "min_sum_hessian_in_leaf" = Some (PInt 5) /\
  config !! "min_data_in_leaf" = Some (PInt 20).
Proof. cbv zeta. repeat split; vm_compute; reflexivity. Qed.

Lemma run_callbacks_log period st iteration end_iteration score :
  run_callbacks [(log_evaluation period, st)] iteration end_iteration score
  = inl [(log_evaluation period, st)].
Proof. reflexivity. Qed.

(** Without an early-stopping callback the loop runs all its rounds and
    [best_iteration] keeps the 0 it starts with. *)
Lemma boosting_loop_log_only params X y Xv yv end_iteration remaining ts period st :
  match boosting_loop params X y Xv yv end_iteration remaining ts
          [(log_evaluation period, st)] with
  | Ok (ts', best) => best = 0 /\ (length ts' <= length ts + remaining)%nat
  | Raise _ => True
  end.
Proof.
  revert ts. induction remaining as [|r IH]; intros ts; simpl.
  - split; [done | lia].
  - set (ts1 := match grow params X y ts with
                | Some t => (ts ++ [t])%list
                | None => ts
                end).
    assert (Hlen : (length ts1 <= length ts + 1)%nat).
    { unfold ts1. destruct (grow params X y ts); [rewrite length_app; simpl |]; lia. }
    destruct (l1 ts1 Xv yv) as [score|e]; cbn [mbind Result_bind]; [|done].
    specialize (IH ts1).
    destruct (boosting_loop params X y Xv yv end_iteration r ts1 _)
      as [[ts' best]|e]; [|done].
    destruct IH as [-> IH]. split; [done | lia].
Qed.

(** The call of the notebook, [lgb.train(lgb_params, train_data, 200,
    valid_sets=valid_data, callbacks=[no_info])]: at most 200 trees,
    [best_iteration] 0, and a prediction with
    [num_iteration=model.best_iteration] that uses every tree grown. *)
Lemma train_no_info {G} (w : World G) params train_set valid_sets :
  match train params train_set 200 valid_sets [no_info] w with
  | Ok (model, w') =>
      w' = w /\
      best_iteration model = 0 /\
      (length (trees model) <= 200)%nat /\
      num_iteration_for_pred model (best_iteration model) = length (trees model)
  | Raise _ => True
  end.
Proof.
  unfold train.
  rewrite run_bind. unfold read at 1.
  destruct (heap w !! ds_data train_set) as [X|]; [|done].
  rewrite run_bind, run_lift.
  destruct (traverse numeric _) as [y|]; [|done].
  rewrite run_bind, run_lift.
  destruct (refuses (resolve params) X y) as [msg|]; [done|].
  rewrite run_bind. unfold read at 1.
  destruct (heap w !! ds_data valid_sets) as [Xv|]; [|done].
  rewrite run_bind, run_lift.
  destruct (traverse numeric _) as [yv|]; [|done].
  rewrite run_bind, run_lift.
  pose proof (boosting_loop_log_only (resolve params) X y Xv yv 200 200 []
                (-1) None) as Hloop.
  change ((fun cb => (cb, None)) <$> [no_info])
    with [(log_evaluation (-1), @None (Q * nat))].
  destruct (boosting_loop _ _ _ _ _ _ _ _ _) as [[ts best]|]; [|done].
  destruct Hloop as [-> Hlen]. cbn.
  split; [done |]. split; [done |]. split; [exact Hlen | done].
Qed.

(** C4: for every learner, store, configuration and pair of data sets, a
    run of [lgb.train(params, train_data, 200, valid_sets=valid_data,
    callbacks=[no_info])] that returns a booster has grown at most 200
    trees and left [best_iteration] at 0, the value it starts with: no
    round is selected by its validation error.  Both prediction calls of
    the notebook pass that same [model.best_iteration], and with it
    [predict] sums every tree of the booster, the trees of the last round
    included, on whatever frame it is given. *)
Theorem best_iteration_never_set {G} (w : World G) params train_set valid_sets :
  match train params train_set 200 valid_sets [no_info] w with
  | Ok (model, w') =>
      w' = w /\
      (length (trees model) <= 200)%nat /\
      best_iteration model = 0 /\
      (forall (data : loc) (w0 : World G),
         predict model data (best_iteration model) w0
         = match heap w0 !! data with
           | Some X => Ok (raw_predict (trees model) X, w0)
           | None => Raise DanglingReference
           end)
  | Raise _ => True
  end.
Proof.
  pose proof (train_no_info w params train_set valid_sets) as H.
  destruct (train params train_set 200 valid_sets [no_info] w)
    as [[model w']|e]; [| done].
  destruct H as (Hw & Hbest & Hlen & Hnum).
  split; [exact Hw |]. split; [exact Hlen |]. split; [exact Hbest |].
  intros data w0. unfold predict. rewrite Hnum, firstn_all.
  rewrite run_bind. unfold read. by destruct (heap w0 !! data).
Qed.

End Training.

(** C9 as stated fails: the configuration does not ask for 5 samples per
    leaf; no key of [lgb_params] is an alias of [min_data_in_leaf]. *)
Lemma lgb_params_resolved_counterexample :
  LightGBM.resolve Notebook.lgb_params !! "min_data_in_leaf" <> Some (LightGBM.PInt 5) /\
  Forall (fun kv => LightGBM.canonical kv.1 <> "min_data_in_leaf")
    Notebook.lgb_params.
Proof.
  split; [vm_compute; discriminate |].
  apply (bool_decide_unpack _). vm_compute. reflexivity.
Qed.

(** The two ways of calling [lgb.train], run with the sample learner on
    [fit_train] and [fit_valid].  With [no_info] alone all 10 trees the
    learner grows are kept, [best_iteration] is 0 and the prediction sums
    the 10 trees, although the validation error was 0 after round 3 and
    is 14/2 with all of them.  With [early_stopping(5)] training stops
    after round 8, [best_iteration] is 3, the booster keeps 3 trees and
    predicts with them. *)
Example train_sample_run :
  match LightGBM.train (G := nat) Notebook.lgb_params fit_train 200 fit_valid
          [Notebook.no_info] fit_world with
  | Ok (model, w) =>
      Some (LightGBM.best_iteration model,
            length (LightGBM.trees model),
            LightGBM.l1 (take 3 (LightGBM.trees model)) fit_features [3%Q; 3%Q],
            LightGBM.l1 (LightGBM.trees model) fit_features [3%Q; 3%Q],
            LightGBM.predict model 1%positive (LightGBM.best_iteration model) w)
  | Raise _ => None
  end = Some (0, 10%nat, Ok (0 # 2), Ok (14 # 2), Ok ([10%Q; 10%Q], fit_world)) /\
  match LightGBM.train (G := nat) Notebook.lgb_params fit_train 200 fit_valid
          [LightGBM.early_stopping 5] fit_world with
  | Ok (model, w) =>
      Some (LightGBM.best_iteration model,
            length (LightGBM.trees model),
            LightGBM.predict model 1%positive (LightGBM.best_iteration model) w)
  | Raise _ => None
  end = Some (3, 3%nat, Ok ([3%Q; 3%Q], fit_world)).
Proof. split; vm_compute; reflexivity. Qed.

(** ** The per-label loop *)

Section Loop.
Import Pandas Sklearn LightGBM Notebook.
Context {parser : DatetimeParser} {rng : RandomState} {learner : Learner}.
Implicit Types (df : DataFrame) (l : loc).

Lemma bind_Ok {G A B} (c : M G A) (f : A -> M G B) (w : World G) r :
  (c ≫= f) w = Ok r -> exists a w1, c w = Ok (a, w1) /\ f a w1 = Ok r.
Proof. rewrite run_bind. destruct (c w) as [[a w1]|]; [eauto | done]. Qed.

Lemma lift_Ok {G A} (r : Result A) (w w' : World G) a :
  lift r w = Ok (a, w') -> r = Ok a /\ w' = w.
Proof. rewrite run_lift. destruct r; [| done]. by intros [= -> ->]. Qed.

Lemma read_Ok {G} (w w' : World G) l d :
  read l w = Ok (d, w') -> heap w !! l = Some d /\ w' = w.
Proof. unfold read. destruct (heap w !! l); [| done]. by intros [= -> ->]. Qed.

Lemma getitem_Ok {G} (w w' : World G) l k s :
  DataFrame_getitem l k w = Ok (s, w') ->
  exists d, heap w !! l = Some d /\ get_column d k = Ok s /\ w' = w.
Proof.
  intros (d & w1 & [Hd ->]%read_Ok & [Hs ->]%lift_Ok)%bind_Ok. by exists d.
Qed.

Lemma setitem_array_Ok {G} (w w' : World G) l k vs u :
  DataFrame_setitem_array l k vs w = Ok (u, w') ->
  exists d d',
    heap w !! l = Some d /\ set_column_array d k vs = Ok d' /\
    w' = mkWorld (<[l := d']> (heap w)) (global_rng w).
Proof.
  intros (d & w1 & [Hd ->]%read_Ok & (d' & w2 & [Hs ->]%lift_Ok & Hw)%bind_Ok)%bind_Ok.
  exists d, d'. split; [done |]. split; [done |].
  unfold write in Hw. rewrite Hd in Hw. by injection Hw as _ <-.
Qed.

(** Training reads the two frames and changes nothing; the booster keeps
    what it read. *)
Lemma train_Ok {G} (w w' : World G) params train_set valid_sets n cbs model :
  train params train_set n valid_sets cbs w = Ok (model, w') ->
  w' = w /\
  heap w !! ds_data train_set = Some (train_data model) /\
  train_label model = ds_label train_set /\
  heap w !! ds_data valid_sets = Some (valid_data model) /\
  valid_label model = ds_label valid_sets.
Proof.
  unfold train.
  intros (X & w1 & [HX ->]%read_Ok & H1)%bind_Ok.
  apply bind_Ok in H1 as (y & w1 & [_ ->]%lift_Ok & H1).
  apply bind_Ok in H1 as (u & w1 & [_ ->]%lift_Ok & H1).
  apply bind_Ok in H1 as (Xv & w1 & [HXv ->]%read_Ok & H1).
  apply bind_Ok in H1 as (yv & w1 & [_ ->]%lift_Ok & H1).
  apply bind_Ok in H1 as ([ts best] & w1 & [_ ->]%lift_Ok & H1).
  by injection H1 as <- <-.
Qed.

Lemma predict_Ok {G} (w w' : World G) model data n p :
  predict model data n w = Ok (p, w') -> w' = w.
Proof.
  unfold predict. intros (X & w1 & [_ ->]%read_Ok & H1)%bind_Ok.
  by injection H1 as _ <-.
Qed.

Lemma loop_body_Ok train_set valid_set test_features submit dtr dva dtf g
    pred_labels scores pred_label (w : World rng_state) scores' it w' :
  submit <> train_set -> submit <> valid_set -> submit <> test_features ->
  loop_invariant train_set valid_set test_features submit dtr dva dtf g w ->
  loop_body train_set valid_set test_features submit pred_labels scores
    pred_label w = Ok ((scores', it), w') ->
  loop_invariant train_set valid_set test_features submit dtr dva dtf g w' /\
  it_label it = pred_label /\
  fitted_on dtr dva pred_labels it.
Proof.
  intros Hs1 Hs2 Hs3 [Htr Hva Hte Hsub Hg]. unfold loop_body. intros Hrun.
  apply bind_Ok in Hrun as (l1 & w1 & Hf1 & Hrun).
  destruct (time_feature_Ok _ _ _ _ _ _ Htr Hf1) as (Ftr & HFtr & Hl1 & _ & [Hg1 Hp1]).
  apply bind_Ok in Hrun as (ytr & w1' & (d & Hd & Hytr & ->)%getitem_Ok & Hrun).
  rewrite (Hp1 _ _ Htr) in Hd. injection Hd as <-.
  apply bind_Ok in Hrun as (l2 & w2 & Hf2 & Hrun).
  destruct (time_feature_Ok _ _ _ _ _ _ (Hp1 _ _ Hva) Hf2)
    as (Fva & HFva & Hl2 & _ & [Hg2 Hp2]).
  apply bind_Ok in Hrun as (yva & w2' & (d & Hd & Hyva & ->)%getitem_Ok & Hrun).
  rewrite (Hp2 _ _ (Hp1 _ _ Hva)) in Hd. injection Hd as <-.
  apply bind_Ok in Hrun as (model & w3 & Htrain & Hrun).
  apply train_Ok in Htrain as (-> & HX & Hy & HXv & Hyv).
  cbn [ds_data ds_label] in *.
  rewrite (Hp2 _ _ Hl1) in HX. injection HX as HX.
  rewrite Hl2 in HXv. injection HXv as HXv.
  apply bind_Ok in Hrun as (vp & w3 & ->%predict_Ok & Hrun).
  apply bind_Ok in Hrun as (tp & w3 & ->%predict_Ok & Hrun).
  apply bind_Ok in Hrun as (yv & w3 & [_ ->]%lift_Ok & Hrun).
  apply bind_Ok in Hrun as (mae & w3 & [_ ->]%lift_Ok & Hrun).
  apply bind_Ok in Hrun as (u & w3 & (ds & ds' & Hds & _ & ->)%setitem_array_Ok & Hrun).
  injection Hrun as <- <- <-.
  split; [| split].
  - split; cbn [heap global_rng].
    + rewrite lookup_insert_ne by done. auto.
    + rewrite lookup_insert_ne by done. auto.
    + rewrite lookup_insert_ne by done. auto.
    + rewrite lookup_insert_eq. by eexists.
    + congruence.
  - reflexivity.
  - unfold fitted_on. cbn [it_model it_label].
    rewrite <-HX, <-HXv, Hy, Hyv. by repeat split.
Qed.

Lemma for_each_Ok train_set valid_set test_features submit dtr dva dtf g
    pred_labels todo scores (w : World rng_state) scores' its w' :
  submit <> train_set -> submit <> valid_set -> submit <> test_features ->
  loop_invariant train_set valid_set test_features submit dtr dva dtf g w ->
  for_each train_set valid_set test_features submit pred_labels scores todo w
  = Ok ((scores', its), w') ->
  loop_invariant train_set valid_set test_features submit dtr dva dtf g w' /\
  it_label <$> its = todo /\
  Forall (fitted_on dtr dva pred_labels) its.
Proof.
  intros Hs1 Hs2 Hs3. revert scores w scores' its w'.
  induction todo as [|pred_label rest IH]; intros scores w scores' its w' Hinv Hrun.
  - injection Hrun as <- <- <-. by split.
  - cbn [for_each] in Hrun.
    apply bind_Ok in Hrun as ([s1 it] & w1 & Hbody & Hrun).
    destruct (loop_body_Ok _ _ _ _ _ _ _ _ _ _ _ _ _ _ _ Hs1 Hs2 Hs3 Hinv Hbody)
      as (Hinv1 & Hlabel & Hfit).
    apply bind_Ok in Hrun as ([s2 its2] & w2 & Hrest & Hrun).
    destruct (IH _ _ _ _ _ Hinv1 Hrest) as (Hinv2 & Hlabels & Hfits).
    injection Hrun as <- <- <-.
    split; [done |]. split; [by rewrite fmap_cons, Hlabel, Hlabels |].
    by constructor.
Qed.

Lemma setitem_Ok {G} (w w' : World G) l k s u :
  DataFrame_setitem l k s w = Ok (u, w') ->
  exists d,
    heap w !! l = Some d /\
    w' = mkWorld (<[l := set_column d k s]> (heap w)) (global_rng w).
Proof.
  intros (d & w1 & [Hd ->]%read_Ok & Hw)%bind_Ok.
  exists d. split; [done |].
  unfold write in Hw. rewrite Hd in Hw. by injection Hw as _ <-.
Qed.

Lemma last_columns_length n df :
  length (last_columns n df) = Nat.min n (ncols df).
Proof.
  unfold last_columns, column_names, ncols.
  rewrite length_drop, length_fmap. lia.
Qed.

(** C5: in a run of the notebook that succeeds, the split is drawn once
    from the generator the run started with, and the generator is advanced
    by that one draw only; its two frames are where [train_set] and
    [valid_set] point when the run ends; there is one iteration per label,
    the last 34 columns in order; and every iteration trained on the
    features and the label column of the one training frame and validated
    on those of the one validation frame. *)
Theorem pipeline_shared_partition (w : World rng_state)
    train_dataset test_dataset df dtest out w' :
  heap w !! train_dataset = Some df ->
  heap w !! test_dataset = Some dtest ->
  pipeline train_dataset test_dataset w = Ok (out, w') ->
  exists dtr dva,
    split_frames df (2 # 10) (permutation (nrows df) (global_rng w)).1
    = Ok (dtr, dva) /\
    global_rng w' = (permutation (nrows df) (global_rng w)).2 /\
    heap w' !! train_set out = Some dtr /\
    heap w' !! valid_set out = Some dva /\
    train_set out <> valid_set out /\
    it_label <$> iterations out = last_columns 34 df /\
    length (iterations out) = Nat.min 34 (ncols df) /\
    Forall (fitted_on dtr dva (last_columns 34 df)) (iterations out).
Proof.
  destruct w as [h g]. cbn [heap global_rng]. intros Hdf Hdt Hrun.
  unfold pipeline in Hrun.
  apply bind_Ok in Hrun as (sub & w1 & Halloc & Hrun).
  injection Halloc as <- <-. cbn [heap global_rng] in Hrun.
  set (sub := fresh (dom h)) in *.
  assert (Hsub : h !! sub = None) by apply (fresh_not_allocated (mkWorld h g)).
  assert (Hs_tr : train_dataset <> sub) by congruence.
  assert (Hs_te : test_dataset <> sub) by congruence.
  apply bind_Ok in Hrun as (ids & w1 & (d & _ & _ & ->)%getitem_Ok & Hrun).
  apply bind_Ok in Hrun as (u & w2 & (d0 & Hd0 & ->)%setitem_Ok & Hrun).
  cbn [heap global_rng] in *.
  rewrite insert_insert_eq in Hrun. clear Hd0.
  set (h2 := <[sub := set_column d0 "序号" ids]> h) in *.
  assert (H2sub : is_Some (h2 !! sub)) by (unfold h2; rewrite lookup_insert_eq; by eexists).
  assert (H2tr : h2 !! train_dataset = Some df)
    by (unfold h2; by rewrite lookup_insert_ne).
  assert (H2te : h2 !! test_dataset = Some dtest)
    by (unfold h2; by rewrite lookup_insert_ne).
  apply bind_Ok in Hrun as (df' & w3 & [Hdf' ->]%read_Ok & Hrun).
  cbn [heap] in Hdf'. rewrite H2tr in Hdf'. injection Hdf' as <-.
  apply bind_Ok in Hrun as ([tr va] & w3 & Hsplit & Hrun).
  rewrite (train_test_split_run h2 g train_dataset df) in Hsplit by done.
  cbn [drawn_permutation] in Hsplit.
  destruct (split_frames df (2 # 10) _) as [[dtr dva]|] eqn:Hframes; [| done].
  cbv zeta in Hsplit. injection Hsplit as <- <- <-.
  set (tr := fresh (dom h2)) in *.
  set (va := fresh (dom (<[tr := dtr]> h2))) in *.
  assert (Htr : h2 !! tr = None) by apply (fresh_not_allocated (mkWorld h2 g)).
  assert (Hva : <[tr := dtr]> h2 !! va = None)
    by (unfold va; apply not_elem_of_dom, is_fresh).
  assert (Hne : tr <> va) by (intros E; by rewrite <-E, lookup_insert_eq in Hva).
  rewrite lookup_insert_ne in Hva by done.
  set (h3 := <[va := dva]> (<[tr := dtr]> h2)) in *.
  assert (H3 : forall l x, h2 !! l = Some x -> h3 !! l = Some x).
  { intros l x Hl. unfold h3.
    rewrite !lookup_insert_ne by congruence. done. }
  assert (H3tr : h3 !! tr = Some dtr)
    by (unfold h3; by rewrite lookup_insert_ne, lookup_insert_eq).
  assert (H3va : h3 !! va = Some dva) by (unfold h3; by rewrite lookup_insert_eq).
  destruct H2sub as [dsub H2sub].
  apply bind_Ok in Hrun as (tf & w4 & Htf & Hrun).
  destruct (time_feature_Ok (mkWorld h3 _) _ _ _ _ _ (H3 _ _ H2te) Htf)
    as (dtf & _ & H4tf & H3tf & [Hg4 Hp4]).
  cbn [heap global_rng] in *.
  apply bind_Ok in Hrun as ([scores its] & w5 & Hloop & Hrun).
  injection Hrun as <- <-. cbn [train_set valid_set iterations].
  destruct (for_each_Ok tr va tf sub dtr dva dtf (permutation (nrows df) g).2
              _ _ _ _ _ _ _
              ltac:(congruence) ltac:(congruence)
              ltac:(intros E; rewrite <-E, (H3 _ _ H2sub) in H3tf; done)
              ltac:(split; [by apply Hp4 | by apply Hp4 | done
                           | exists dsub; by apply Hp4, H3 | done])
              Hloop)
    as ([Htr5 Hva5 _ _ Hg5] & Hlabels & Hfits).
  exists dtr, dva. split; [done |]. split; [done |].
  split; [done |]. split; [done |]. split; [done |]. split; [done |].
  split; [| done].
  by rewrite <-(length_fmap it_label), Hlabels, last_columns_length.
Qed.

End Loop.

Lemma pipeline_shared_partition_witness :
  exists out w' dtr dva,
    Notebook.pipeline (rng := rotating) train_dataset test_dataset (world 0)
    = Ok (out, w') /\
    Pandas.heap w' !! Notebook.train_set out = Some dtr /\
    Pandas.heap w' !! Notebook.valid_set out = Some dva /\
    length (Notebook.iterations out) = 34%nat /\
    Forall (Notebook.fitted_on dtr dva (Notebook.last_columns 34 train_table))
      (Notebook.iterations out).
Proof.
  assert (Hok : match Notebook.pipeline (rng := rotating) train_dataset
                        test_dataset (world 0) with
                | Ok _ => true
                | Raise _ => false
                end = true) by (vm_compute; reflexivity).
  destruct (Notebook.pipeline (rng := rotating) train_dataset test_dataset (world 0))
    as [[out w']|e] eqn:Hrun; [| discriminate Hok].
  destruct (pipeline_shared_partition (rng := rotating) (world 0) train_dataset
              test_dataset train_table test_table out w' eq_refl eq_refl Hrun)
    as (dtr & dva & _ & _ & Htr & Hva & _ & _ & Hlen & Hfit).
  exists out, w', dtr, dva.
  split; [reflexivity |]. split; [exact Htr |]. split; [exact Hva |].
  split; [exact Hlen | exact Hfit].
Defined.

(** * Further properties of [time_feature] *)

Section TimeFeatureMore.
Import Pandas Notebook.
Context {parser : DatetimeParser} {rng : RandomState}.
Implicit Types (df out : DataFrame).

(** X1: [time_feature] works on a copy.  After a successful call the
    argument holds the frame it held, every other object is as it was, the
    generator has not moved, and the result is an object that did not exist
    before. *)
Theorem time_feature_leaves_input (w : World rng_state) data df pred_labels l w' :
  heap w !! data = Some df ->
  time_feature data pred_labels w = Ok (l, w') ->
  heap w !! l = None /\
  l <> data /\
  heap w' !! data = Some df /\
  global_rng w' = global_rng w /\
  forall l0 d, heap w !! l0 = Some d -> heap w' !! l0 = Some d.
Proof.
  intros Hd Hrun.
  destruct (time_feature_Ok _ _ _ _ _ _ Hd Hrun) as (out & _ & _ & Hnew & [Hg Hp]).
  split; [done |]. split; [congruence |]. split; [by apply Hp |]. by split.
Qed.

(** X2: without its identifier column a frame is refused with the
    [KeyError] of that column, whatever else it holds; with it but without
    the timestamp column, with the [KeyError] of the timestamp column. *)
Theorem time_feature_missing_column (w : World rng_state) data df pred_labels :
  heap w !! data = Some df ->
  ("序号" ∉ column_names df ->
   time_feature data pred_labels w = Raise (KeyError ["序号"])) /\
  ("序号" ∈ column_names df -> "时间" ∉ column_names df ->
   time_feature data pred_labels w = Raise (KeyError ["时间"])).
Proof.
  destruct w as [h g]. cbn [heap]. intros Hd.
  pose proof (time_feature_run h g data df pred_labels Hd) as Hr.
  split.
  - intros Hid.
    assert (Hf : time_feature_frame df pred_labels = Raise (KeyError ["序号"])).
    { unfold time_feature_frame, drop_columns.
      rewrite filter_cons_True by done. by rewrite filter_nil. }
    by rewrite Hf in Hr.
  - intros Hid Ht.
    assert (Hf : time_feature_frame df pred_labels = Raise (KeyError ["时间"])).
    { unfold time_feature_frame.
      rewrite drop_columns_Forall by (by apply Forall_singleton).
      cbn [mbind Result_bind]. rewrite derive_no_time; [done |].
      apply lookup_column_None.
      pose proof (filter_names (fun k => k ∉ ["序号"]) (columns df)) as E.
      cbv beta in E. rewrite E.
      by intros [_ ?]%list_elem_of_filter. }
    by rewrite Hf in Hr.
Qed.

Lemma derive_map_values_Ok idx cols k f tdt v :
  rectangular (mkDataFrame idx cols) ->
  lookup_column "时间" cols = Some tdt ->
  traverse f tdt = Ok v ->
  derive k (map_values f) (mkDataFrame idx cols)
  = Ok (mkDataFrame idx (upsert k v cols)).
Proof.
  intros Hr Ht Hv. unfold derive, get_column, map_values. cbn [columns index].
  rewrite Ht. cbn [mbind Result_bind s_values s_index]. rewrite Hv.
  cbn [mbind Result_bind]. f_equal.
  apply (set_column_own (mkDataFrame idx cols)).
  rewrite (traverse_length _ _ _ Hv).
  by apply (rectangular_column (mkDataFrame idx cols) "时间").
Qed.

(** The frame after the first five assignments, for a timestamp column
    converted to [tdt] in which every cell is a timestamp or missing. *)
Lemma traverse_dt_field (f : Calendar.Timestamp -> Z) (tdt : list Value) :
  Forall (fun v => match v with VTime _ | VNaT => True | _ => False end) tdt ->
  exists v, traverse (dt_field f) tdt = Ok v.
Proof.
  intros Ht. apply traverse_Ok. eapply Forall_impl; [exact Ht |].
  intros [] Hv; try done; by eexists.
Qed.

Lemma to_datetime_cells tcol tdt :
  traverse to_datetime_scalar tcol = Ok tdt ->
  Forall (fun v => match v with VTime _ | VNaT => True | _ => False end) tdt.
Proof.
  intros Hf%traverse_Forall2. induction Hf as [|x y l l' Hxy _ IH]; [done |].
  constructor; [| done].
  destruct x; simpl in Hxy;
    try (destruct (parse_datetime _); [| done]); by injection Hxy as <-.
Qed.

Lemma to_datetime_parseable tcol :
  Forall (fun v => ~ unparseable v) tcol ->
  exists tdt, traverse to_datetime_scalar tcol = Ok tdt.
Proof.
  intros Hp. apply traverse_Ok. eapply Forall_impl; [exact Hp |].
  intros v Hv. cbv beta.
  destruct (to_datetime_scalar v) as [y|e] eqn:E; [by exists y |].
  by apply to_datetime_scalar_Raise in E as [_ ?].
Qed.

Lemma to_datetime_missing tcol tdt i v :
  traverse to_datetime_scalar tcol = Ok tdt ->
  tcol !! i = Some v -> v = VNaN \/ v = VNaT ->
  VNaT ∈ tdt.
Proof.
  intros Hf%traverse_Forall2 Hi Hv.
  destruct (Forall2_lookup_l _ _ _ _ _ Hf Hi) as (y & Hy & Hxy).
  apply list_elem_of_lookup_2 in Hy.
  destruct Hv as [-> | ->]; simpl in Hxy; by injection Hxy as <-.
Qed.

Lemma traverse_week_missing (tdt : list Value) :
  Forall (fun v => match v with VTime _ | VNaT => True | _ => False end) tdt ->
  VNaT ∈ tdt ->
  traverse (fun v => match v with
                     | VTime t => Ok (VInt (ts_week t))
                     | VNaT => Raise (ValueError "cannot convert NA to integer")
                     | _ => Raise (AttributeError
                         "Can only use .dt accessor with datetimelike values")
                     end) tdt
  = Raise (ValueError "cannot convert NA to integer").
Proof.
  induction 1 as [|x l Hx _ IH]; intros Hin.
  - by apply elem_of_nil in Hin.
  - simpl. destruct x; try done.
    apply elem_of_cons in Hin as [? | Hin]; [done |].
    by rewrite IH.
Qed.

(** X3: a missing timestamp is not tolerated either.  On a frame with its
    identifier column whose timestamps all parse or are missing, one
    missing timestamp makes the call fail at the cast of the week to
    [int]. *)
Theorem time_feature_missing_timestamp (w : World rng_state) data df
    pred_labels tcol i v :
  heap w !! data = Some df ->
  rectangular df ->
  "序号" ∈ column_names df ->
  lookup_column "时间" (columns df) = Some tcol ->
  Forall (fun v => ~ unparseable v) tcol ->
  tcol !! i = Some v -> v = VNaN \/ v = VNaT ->
  time_feature data pred_labels w
  = Raise (ValueError "cannot convert NA to integer").
Proof.
  destruct w as [h g]. cbn [heap]. intros Hd Hr Hid Ht Hp Hi Hv.
  pose proof (time_feature_run h g data df pred_labels Hd) as Hrun.
  assert (Hf : time_feature_frame df pred_labels
               = Raise (ValueError "cannot convert NA to integer")).
  { unfold time_feature_frame.
    rewrite drop_columns_Forall by (by apply Forall_singleton).
    cbn [mbind Result_bind].
    destruct (to_datetime_parseable tcol Hp) as [tdt Htdt].
    pose proof (to_datetime_cells _ _ Htdt) as Hcells.
    pose proof (to_datetime_missing _ _ _ _ Htdt Hi Hv) as Hnat.
    remember (filter (fun c => c.1 ∉ ["序号"]) (columns df)) as base eqn:Hbase.
    assert (Hr0 : rectangular (mkDataFrame (index df) base)).
    { subst base. by apply rectangular_filter. }
    assert (Ht0 : lookup_column "时间" base = Some tcol).
    { subst base.
      pose proof (lookup_column_filter (fun k => k ∉ ["序号"]) "时间" (columns df))
        as Hlk.
      cbv beta in Hlk. rewrite Hlk.
      by rewrite decide_True by (by intros ?%list_elem_of_singleton). }
    assert (Hlen : length tdt = length (index df)).
    { rewrite (traverse_length _ _ _ Htdt).
      by apply (rectangular_column (mkDataFrame (index df) base) "时间"). }
    unfold to_datetime.
    rewrite (derive_map_values_Ok _ _ _ _ _ _ Hr0 Ht0 Htdt).
    cbn [mbind Result_bind].
    assert (Hr1 : rectangular (mkDataFrame (index df) (upsert "时间" tdt base)))
      by (by apply rectangular_upsert).
    assert (Ht1 : lookup_column "时间" (upsert "时间" tdt base) = Some tdt)
      by apply lookup_upsert_eq.
    remember (upsert "时间" tdt base) as c eqn:Hc. clear Hc.
    unfold dt_month, dt_day, dt_hour, dt_minute.
    do 4 (match goal with
          | |- (derive ?k (map_values (dt_field ?f)) _ ≫= _) = _ =>
              let v := fresh "v" in let Hv := fresh "Hv" in
              destruct (traverse_dt_field f tdt Hcells) as [v Hv];
              rewrite (derive_map_values_Ok _ _ _ _ _ _ Hr1 Ht1 Hv);
              cbn [mbind Result_bind];
              apply (rectangular_upsert _ _ k v) in Hr1;
                [| by rewrite (traverse_length _ _ _ Hv)];
              apply (eq_trans (lookup_upsert_ne k "时间" v c ltac:(done))) in Ht1;
              remember (upsert k v c) as c' eqn:Hc'; clear Hc' c; rename c' into c
          end).
    unfold dt_isocalendar_week_astype_int.
    by rewrite (derive_map_values_Raise _ _ _ _ tdt
                  (ValueError "cannot convert NA to integer") Ht1
                  (traverse_week_missing _ Hcells Hnat)). }
  by rewrite Hf in Hrun.
Qed.

End TimeFeatureMore.

Lemma time_feature_leaves_input_witness :
  exists l w',
    Notebook.time_feature (rng := rotating) test_dataset None (world 0) = Ok (l, w') /\
    Pandas.heap w' !! test_dataset = Some test_table /\
    Pandas.heap w' !! train_dataset = Some train_table.
Proof.
  destruct (Notebook.time_feature (rng := rotating) test_dataset None (world 0))
    as [[l w']|e] eqn:Hrun; [| vm_compute in Hrun; discriminate].
  destruct (time_feature_leaves_input (rng := rotating) (world 0) test_dataset
              test_table None l w' eq_refl Hrun) as (_ & _ & Hin & _ & Hall).
  exists l, w'. split; [reflexivity |]. split; [exact Hin |].
  apply Hall. reflexivity.
Defined.

Lemma time_feature_missing_column_witness :
  Notebook.time_feature (rng := rotating) 1%positive None
    (Pandas.mkWorld {[ 1%positive := no_id_table ]} 0%nat)
  = Raise (KeyError ["序号"]).
Proof.
  destruct (time_feature_missing_column (rng := rotating)
              (Pandas.mkWorld {[ 1%positive := no_id_table ]} 0%nat)
              1%positive no_id_table None) as [Hid _].
  - reflexivity.
  - apply Hid. by apply (bool_decide_unpack _).
Defined.

Lemma time_feature_missing_timestamp_witness :
  Notebook.time_feature (rng := rotating) 1%positive None
    (Pandas.mkWorld {[ 1%positive := gap_table ]} 0%nat)
  = Raise (ValueError "cannot convert NA to integer").
Proof.
  apply (time_feature_missing_timestamp (rng := rotating)
           (Pandas.mkWorld {[ 1%positive := gap_table ]} 0%nat)
           1%positive gap_table None
           [VStr "2023-07-22 09:15:00"; VNaN] 1%nat VNaN).
  - reflexivity.
  - repeat constructor.
  - by apply (bool_decide_unpack _).
  - reflexivity.
  - repeat constructor; [by vm_compute | by intros []].
  - reflexivity.
  - by left.
Defined.

(** ** When [time_feature] succeeds, and with which columns *)

Section TimeFeatureSuccess.
Import Pandas Notebook.
Context {parser : DatetimeParser} {rng : RandomState}.
Implicit Types (df out : DataFrame).




Lemma elem_of_upsert_names k k' vs (cols : list (string * list Value)) :
  k' ∈ (upsert k vs cols).*1 <-> k' = k \/ k' ∈ cols.*1.
Proof.
  rewrite upsert_names. case_decide as Hk.
  - split; [by right | by intros [-> | ?]].
  - rewrite elem_of_app, list_elem_of_singleton. tauto.
Qed.

(** The columns of the result before stripping: the derived ones, and
    those of the input other than the identifier and the timestamp. *)
Lemma elem_of_feature_columns k cols ts :
  k ∈ (feature_columns cols ts).*1 <->
  k <> "时间" /\ (k ∈ derived_names \/ (k <> "序号" /\ k ∈ cols.*1)).
Proof.
  unfold feature_columns.
  pose proof (filter_names (fun k => k ∉ ["时间"])) as E. cbv beta in E.
  rewrite E, list_elem_of_filter. clear E.
  unfold calendar_columns. cbn [foldl fst snd].
  rewrite !elem_of_upsert_names.
  pose proof (filter_names (fun k => k ∉ ["序号"]) cols) as E. cbv beta in E.
  rewrite E, list_elem_of_filter, !list_elem_of_singleton.
  unfold derived_names. rewrite !elem_of_cons, elem_of_nil. tauto.
Qed.


Lemma filter_all {A} (P : A -> Prop) `{forall x, Decision (P x)} (l : list A) :
  (forall x, P x) -> filter P l = l.
Proof.
  intros HP. induction l as [|x l IH]; [done |].
  by rewrite filter_cons_True, IH.
Qed.

Lemma falsy_labels (pred_labels : option (list string)) :
  truthy pred_labels = false -> default [] pred_labels = [].
Proof. by destruct pred_labels as [[|]|]. Qed.

(** X4: labels must name columns of the result.  A call that succeeds was
    given, as labels, only names of input columns or of derived features,
    and neither the identifier nor the timestamp: with one of those two
    among the labels the call fails. *)
Theorem time_feature_labels_are_columns (w : World rng_state) data df
    pred_labels l w' :
  heap w !! data = Some df ->
  rectangular df ->
  time_feature data pred_labels w = Ok (l, w') ->
  Forall (fun k => k <> "序号" /\ k <> "时间" /\
                   (k ∈ column_names df \/ k ∈ derived_names))
    (default [] pred_labels).
Proof.
  intros Hd Hr Hrun.
  destruct (time_feature_Ok _ _ _ _ _ _ Hd Hrun) as (out & Hout & _).
  destruct (time_feature_frame_Ok _ _ _ Hr Hout) as (tcol & ts & _ & _ & _ & _ & Hres).
  destruct (truthy pred_labels) eqn:Etruthy.
  - destruct Hres as [Hall _]. eapply Forall_impl; [exact Hall |].
    intros k Hk. cbv beta in Hk. apply elem_of_feature_columns in Hk.
    assert (Hnot : "序号" ∉ derived_names) by (by apply (bool_decide_unpack _)).
    destruct Hk as [Ht [Hk | [Hi Hk]]].
    + split; [by intros -> | by split; [| right]].
    + by split; [| split; [| left]].
  - by rewrite falsy_labels.
Qed.


(** X6: the names and the order of the columns returned.  For a well-formed
    frame without a column named like a derived feature, the result has the
    columns of the input in their order, identifier and timestamp left out,
    then [month], [day], [hour], [minute], [weekofyear], [dayofyear],
    [dayofweek], [is_weekend], all less the labels. *)
Theorem time_feature_column_names (w : World rng_state) data df pred_labels l w' :
  heap w !! data = Some df ->
  wf df ->
  Forall (fun k => k ∉ column_names df) derived_names ->
  time_feature data pred_labels w = Ok (l, w') ->
  exists out,
    heap w' !! l = Some out /\
    column_names out
    = filter (fun k => k ∉ default [] pred_labels)
        (filter (fun k => k ∉ ["时间"])
           (filter (fun k => k ∉ ["序号"]) (column_names df))
         ++ derived_names)%list.
Proof.
  intros Hd [Hnd Hr] Hnew Hrun.
  destruct (time_feature_Ok _ _ _ _ _ _ Hd Hrun) as (out & Hout & Hl & _ & _).
  destruct (time_feature_frame_Ok _ _ _ Hr Hout)
    as (tcol & ts & Hid & Ht & _ & _ & Hres).
  exists out. split; [done |].
  assert (Htime : "时间" ∈ column_names df).
  { pose proof (lookup_column_filter (fun k => k ∉ ["序号"]) "时间" (columns df))
      as Hlk.
    cbv beta in Hlk. rewrite Hlk in Ht. case_decide; [| done].
    apply lookup_column_is_Some. by eexists. }
  pose proof (feature_columns_names (columns df) ts Htime Hnew) as Hnames.
  unfold column_names in *.
  destruct (truthy pred_labels) eqn:Etruthy.
  - destruct Hres as [_ ->]. cbn [columns].
    pose proof (filter_names (fun k => k ∉ default [] pred_labels)
                  (feature_columns (columns df) ts)) as E.
    cbv beta in E. by rewrite E, Hnames.
  - subst out. cbn [columns]. rewrite falsy_labels by done.
    rewrite Hnames. symmetry. apply filter_all. intros k. apply not_elem_of_nil.
Qed.

End TimeFeatureSuccess.

Lemma time_feature_labels_are_columns_witness :
  Forall (fun k => k <> "序号" /\ k <> "时间" /\
                   (k ∈ Pandas.column_names train_table \/
                    k ∈ Notebook.derived_names))
    (Notebook.last_columns 34 train_table).
Proof.
  assert (Hok : match Notebook.time_feature (rng := rotating) train_dataset
                        (Some (Notebook.last_columns 34 train_table)) (world 0) with
                | Ok _ => true
                | Raise _ => false
                end = true) by (vm_compute; reflexivity).
  destruct (Notebook.time_feature (rng := rotating) train_dataset
              (Some (Notebook.last_columns 34 train_table)) (world 0))
    as [[l w']|e] eqn:Hrun; [| discriminate Hok].
  apply (time_feature_labels_are_columns (rng := rotating) (world 0)
           train_dataset train_table
           (Some (Notebook.last_columns 34 train_table)) l w').
  - reflexivity.
  - apply Forall_forall. intros c Hc. revert c Hc. apply Forall_forall.
    apply (bool_decide_unpack _). vm_compute. reflexivity.
  - exact Hrun.
Defined.


Lemma time_feature_column_names_witness :
  exists l w' out,
    Notebook.time_feature (rng := rotating) test_dataset None (world 0) = Ok (l, w') /\
    Pandas.heap w' !! l = Some out /\
    Pandas.column_names out = Notebook.derived_names.
Proof.
  destruct (Notebook.time_feature (rng := rotating) test_dataset None (world 0))
    as [[l w']|e] eqn:Hrun; [| vm_compute in Hrun; discriminate].
  destruct (time_feature_column_names (rng := rotating) (world 0) test_dataset
              test_table None l w') as (out & Hl & Hn).
  - reflexivity.
  - split; [by apply (bool_decide_unpack _) | repeat constructor].
  - by apply (bool_decide_unpack _).
  - exact Hrun.
  - exists l, w', out. split; [reflexivity |]. split; [exact Hl | exact Hn].
Defined.

(** * What the loop scores, predicts and writes *)

Section LoopResults.
Import Pandas Sklearn LightGBM Notebook.
Context {parser : DatetimeParser} {rng : RandomState} {learner : Learner}.
Implicit Types (df : DataFrame) (l : loc).

Lemma train_no_info_Ok {G} (w w' : World G) params train_set valid_sets model :
  train params train_set 200 valid_sets [no_info] w = Ok (model, w') ->
  best_iteration model = 0 /\
  (length (trees model) <= 200)%nat /\
  num_iteration_for_pred model (best_iteration model) = length (trees model).
Proof.
  intros H. pose proof (train_no_info w params train_set valid_sets) as Hn.
  rewrite H in Hn. tauto.
Qed.

Lemma predict_all_Ok {G} (w w' : World G) model data n p X :
  num_iteration_for_pred model n = length (trees model) ->
  heap w !! data = Some X ->
  predict model data n w = Ok (p, w') ->
  p = raw_predict (trees model) X.
Proof.
  intros Hn HX. unfold predict.
  intros (X' & w1 & [HX' ->]%read_Ok & H1)%bind_Ok.
  rewrite HX in HX'. injection HX' as <-.
  rewrite Hn, firstn_all in H1. by injection H1 as <- _.
Qed.

(** One turn of the loop: the prediction it makes, the score it records
    and the column it writes. *)
Lemma loop_body_turn train_set valid_set test_features submit dtr dva dtf g
    dsub pred_labels scores pred_label (w : World rng_state) scores' it w' :
  submit <> train_set -> submit <> valid_set -> submit <> test_features ->
  loop_invariant train_set valid_set test_features submit dtr dva dtf g w ->
  heap w !! submit = Some dsub ->
  loop_body train_set valid_set test_features submit pred_labels scores
    pred_label w = Ok ((scores', it), w') ->
  heap w' !! submit
  = Some (mkDataFrame (index dsub)
            (upsert (it_label it) (VFloat <$> it_test_pred it) (columns dsub))) /\
  scores' = <[it_label it := it_MAE it]> scores /\
  scored_on_all_trees dtf it.
Proof.
  intros Hs1 Hs2 Hs3 [Htr Hva Hte Hsub Hg] Hdsub. unfold loop_body. intros Hrun.
  apply bind_Ok in Hrun as (l1 & w1 & Hf1 & Hrun).
  destruct (time_feature_Ok _ _ _ _ _ _ Htr Hf1) as (Ftr & _ & _ & _ & [_ Hp1]).
  apply bind_Ok in Hrun as (ytr & w1' & (d & _ & _ & ->)%getitem_Ok & Hrun).
  apply bind_Ok in Hrun as (l2 & w2 & Hf2 & Hrun).
  destruct (time_feature_Ok _ _ _ _ _ _ (Hp1 _ _ Hva) Hf2)
    as (Fva & _ & _ & _ & [_ Hp2]).
  apply bind_Ok in Hrun as (yva & w2' & (d' & _ & _ & ->)%getitem_Ok & Hrun).
  apply bind_Ok in Hrun as (model & w3 & Htrain & Hrun).
  destruct (train_no_info_Ok _ _ _ _ _ _ Htrain) as (Hbest & Hlen & Hnum).
  apply train_Ok in Htrain as (-> & _ & _ & HXv & Hyv).
  cbn [ds_data ds_label] in *.
  apply bind_Ok in Hrun as (vp & w3 & Hvp & Hrun).
  pose proof (predict_all_Ok _ _ _ _ _ _ _ Hnum HXv Hvp) as Evp.
  apply predict_Ok in Hvp as ->.
  apply bind_Ok in Hrun as (tp & w3 & Htp & Hrun).
  pose proof (predict_all_Ok _ _ _ _ _ _ _ Hnum (Hp2 _ _ (Hp1 _ _ Hte)) Htp)
    as Etp.
  apply predict_Ok in Htp as ->.
  apply bind_Ok in Hrun as (yv & w3 & [Hyv' ->]%lift_Ok & Hrun).
  apply bind_Ok in Hrun as (mae & w3 & [Hmae ->]%lift_Ok & Hrun).
  apply bind_Ok in Hrun
    as (u & w3 & (ds & ds' & Hds & Hset & ->)%setitem_array_Ok & Hrun).
  injection Hrun as <- <- <-.
  rewrite (Hp2 _ _ (Hp1 _ _ Hdsub)) in Hds. injection Hds as <-.
  unfold set_column_array in Hset. case_decide as Hn; [| done].
  injection Hset as <-.
  cbn [heap it_label it_test_pred it_MAE].
  split; [by rewrite lookup_insert_eq |]. split; [done |].
  unfold scored_on_all_trees.
  cbn [it_num_iteration it_model it_valid_pred it_test_pred it_MAE].
  split; [done |]. split; [done |]. split; [done |]. split; [done |].
  exists yv. split; [by rewrite Hyv | done].
Qed.

Lemma for_each_turns train_set valid_set test_features submit dtr dva dtf g
    pred_labels todo scores dsub (w : World rng_state) scores' its w' :
  submit <> train_set -> submit <> valid_set -> submit <> test_features ->
  loop_invariant train_set valid_set test_features submit dtr dva dtf g w ->
  heap w !! submit = Some dsub ->
  for_each train_set valid_set test_features submit pred_labels scores todo w
  = Ok ((scores', its), w') ->
  heap w' !! submit
  = Some (mkDataFrame (index dsub)
            (foldl (fun cols it =>
                      upsert (it_label it) (VFloat <$> it_test_pred it) cols)
               (columns dsub) its)) /\
  scores' = foldl (fun m it => <[it_label it := it_MAE it]> m) scores its /\
  Forall (scored_on_all_trees dtf) its.
Proof.
  intros Hs1 Hs2 Hs3. revert scores dsub w scores' its w'.
  induction todo as [|pred_label rest IH];
    intros scores dsub w scores' its w' Hinv Hdsub Hrun.
  - injection Hrun as <- <- <-. destruct dsub. by split.
  - cbn [for_each] in Hrun.
    apply bind_Ok in Hrun as ([s1 it] & w1 & Hbody & Hrun).
    destruct (loop_body_Ok _ _ _ _ _ _ _ _ _ _ _ _ _ _ _ Hs1 Hs2 Hs3 Hinv Hbody)
      as (Hinv1 & _ & _).
    destruct (loop_body_turn _ _ _ _ _ _ _ _ _ _ _ _ _ _ _ _
                Hs1 Hs2 Hs3 Hinv Hdsub Hbody) as (Hsub1 & -> & Hit).
    apply bind_Ok in Hrun as ([s2 its2] & w2 & Hrest & Hrun).
    destruct (IH _ _ _ _ _ _ Hinv1 Hsub1 Hrest) as (Hsub2 & -> & Hits).
    injection Hrun as <- <- <-. cbn [foldl index columns] in *.
    split; [done |]. split; [done |]. by constructor.
Qed.

Lemma set_column_empty k idx vs :
  (vs = [] -> idx = []) ->
  set_column (mkDataFrame [] []) k (mkSeries idx vs)
  = mkDataFrame idx [(k, vs)].
Proof.
  intros Hidx. unfold set_column. cbn [index columns s_values s_index].
  destruct vs as [|v vs].
  - rewrite Hidx by done. reflexivity.
  - cbn [fmap list_fmap index columns]. unfold align. cbn [s_index s_values].
    by rewrite decide_True.
Qed.

(** The cells before the loop: the result table holds the identifiers of
    the test table, the partitions and the test features are in place. *)
Lemma pipeline_Ok (w : World rng_state) train_dataset test_dataset df dtest
    out w' :
  heap w !! train_dataset = Some df ->
  heap w !! test_dataset = Some dtest ->
  pipeline train_dataset test_dataset w = Ok (out, w') ->
  exists ids dtr dva dtf tf g w4,
    lookup_column "序号" (columns dtest) = Some ids /\
    time_feature_frame dtest None = Ok dtf /\
    submit out <> train_set out /\ submit out <> valid_set out /\
    submit out <> tf /\
    loop_invariant (train_set out) (valid_set out) tf (submit out)
      dtr dva dtf g w4 /\
    heap w4 !! submit out
    = Some (set_column (mkDataFrame [] []) "序号" (mkSeries (index dtest) ids)) /\
    for_each (train_set out) (valid_set out) tf (submit out)
      (last_columns 34 df) ∅ (last_columns 34 df) w4
    = Ok ((MAE_scores out, iterations out), w').
Proof.
  destruct w as [h g]. cbn [heap global_rng]. intros Hdf Hdt Hrun.
  unfold pipeline in Hrun.
  apply bind_Ok in Hrun as (sub & w1 & Halloc & Hrun).
  injection Halloc as <- <-. cbn [heap global_rng] in Hrun.
  set (sub := fresh (dom h)) in *.
  assert (Hsub : h !! sub = None) by apply (fresh_not_allocated (mkWorld h g)).
  assert (Hs_tr : train_dataset <> sub) by congruence.
  assert (Hs_te : test_dataset <> sub) by congruence.
  apply bind_Ok in Hrun as (ids & w1 & (d & Hd & Hids & ->)%getitem_Ok & Hrun).
  cbn [heap] in Hd. rewrite lookup_insert_ne in Hd by done.
  rewrite Hdt in Hd. injection Hd as <-.
  unfold get_column in Hids.
  destruct (lookup_column "序号" (columns dtest)) as [vs|] eqn:Hvs; [| done].
  injection Hids as <-.
  apply bind_Ok in Hrun as (u & w2 & (d0 & Hd0 & ->)%setitem_Ok & Hrun).
  cbn [heap global_rng] in *.
  rewrite lookup_insert_eq in Hd0. injection Hd0 as <-.
  rewrite insert_insert_eq in Hrun.
  set (dsub := set_column (mkDataFrame [] []) "序号" (mkSeries (index dtest) vs))
    in *.
  set (h2 := <[sub := dsub]> h) in *.
  assert (H2sub : h2 !! sub = Some dsub) by (unfold h2; by rewrite lookup_insert_eq).
  assert (H2tr : h2 !! train_dataset = Some df)
    by (unfold h2; by rewrite lookup_insert_ne).
  assert (H2te : h2 !! test_dataset = Some dtest)
    by (unfold h2; by rewrite lookup_insert_ne).
  apply bind_Ok in Hrun as (df' & w3 & [Hdf' ->]%read_Ok & Hrun).
  cbn [heap] in Hdf'. rewrite H2tr in Hdf'. injection Hdf' as <-.
  apply bind_Ok in Hrun as ([tr va] & w3 & Hsplit & Hrun).
  rewrite (train_test_split_run h2 g train_dataset df) in Hsplit by done.
  cbn [drawn_permutation] in Hsplit.
  destruct (split_frames df (2 # 10) _) as [[dtr dva]|] eqn:Hframes; [| done].
  cbv zeta in Hsplit. injection Hsplit as <- <- <-.
  set (tr := fresh (dom h2)) in *.
  set (va := fresh (dom (<[tr := dtr]> h2))) in *.
  assert (Htr : h2 !! tr = None) by apply (fresh_not_allocated (mkWorld h2 g)).
  assert (Hva : <[tr := dtr]> h2 !! va = None)
    by (unfold va; apply not_elem_of_dom, is_fresh).
  assert (Hne : tr <> va) by (intros E; by rewrite <-E, lookup_insert_eq in Hva).
  rewrite lookup_insert_ne in Hva by done.
  set (h3 := <[va := dva]> (<[tr := dtr]> h2)) in *.
  assert (H3 : forall l x, h2 !! l = Some x -> h3 !! l = Some x).
  { intros l x Hl. unfold h3.
    rewrite !lookup_insert_ne by congruence. done. }
  assert (H3tr : h3 !! tr = Some dtr)
    by (unfold h3; by rewrite lookup_insert_ne, lookup_insert_eq).
  assert (H3va : h3 !! va = Some dva) by (unfold h3; by rewrite lookup_insert_eq).
  apply bind_Ok in Hrun as (tf & w4 & Htf & Hrun).
  destruct (time_feature_Ok (mkWorld h3 _) _ _ _ _ _ (H3 _ _ H2te) Htf)
    as (dtf & Hdtf & H4tf & H3tf & [Hg4 Hp4]).
  cbn [heap global_rng] in *.
  apply bind_Ok in Hrun as ([scores its] & w5 & Hloop & Hrun).
  injection Hrun as <- <-. cbn [submit train_set valid_set iterations MAE_scores].
  exists vs, dtr, dva, dtf, tf, (permutation (nrows df) g).2, w4.
  split; [done |]. split; [done |].
  split; [congruence |]. split; [congruence |].
  split; [intros E; rewrite <-E, (H3 _ _ H2sub) in H3tf; done |].
  split; [| split; [by apply Hp4, H3 | done]].
  split; [by apply Hp4 | by apply Hp4 | done | exists dsub; by apply Hp4, H3 | done].
Qed.

(** X7: what the loop scores and predicts with.  In a run of the notebook
    that succeeds, every iteration passed 0 as [num_iteration], predicted
    the validation and the test features with all the trees of its
    booster, 200 at most, and took as its score the error of that
    prediction on the validation labels; the scores printed are those of
    the iterations, a later one replacing an earlier one under the same
    label. *)
Theorem pipeline_scores_all_trees (w : World rng_state)
    train_dataset test_dataset df dtest out w' :
  heap w !! train_dataset = Some df ->
  heap w !! test_dataset = Some dtest ->
  pipeline train_dataset test_dataset w = Ok (out, w') ->
  exists dtf,
    time_feature_frame dtest None = Ok dtf /\
    MAE_scores out
    = foldl (fun m it => <[it_label it := it_MAE it]> m) ∅ (iterations out) /\
    Forall (scored_on_all_trees dtf) (iterations out).
Proof.
  intros Hdf Hdt Hrun.
  destruct (pipeline_Ok _ _ _ _ _ _ _ Hdf Hdt Hrun)
    as (ids & dtr & dva & dtf & tf & g & w4 & _ & Hdtf & Hs1 & Hs2 & Hs3 &
        Hinv & Hsub & Hloop).
  destruct (for_each_turns _ _ _ _ _ _ _ _ _ _ _ _ _ _ _ _
              Hs1 Hs2 Hs3 Hinv Hsub Hloop) as (_ & Hscores & Hits).
  by exists dtf.
Qed.

(** X8: the table written to [submit_resultV2.csv].  In a run that
    succeeds on a test table whose identifier column has one cell per
    row, the result has the rows of the test table and, first, its
    identifier column; then every iteration in turn has assigned its test
    prediction under its label, in place when the name was there, as a
    new last column otherwise. *)
Theorem pipeline_submit_table (w : World rng_state)
    train_dataset test_dataset df dtest out w' :
  heap w !! train_dataset = Some df ->
  heap w !! test_dataset = Some dtest ->
  rectangular dtest ->
  pipeline train_dataset test_dataset w = Ok (out, w') ->
  exists ids,
    lookup_column "序号" (columns dtest) = Some ids /\
    heap w' !! submit out
    = Some (mkDataFrame (index dtest)
              (foldl (fun cols it =>
                        upsert (it_label it) (VFloat <$> it_test_pred it) cols)
                 [("序号", ids)] (iterations out))).
Proof.
  intros Hdf Hdt Hrect Hrun.
  destruct (pipeline_Ok _ _ _ _ _ _ _ Hdf Hdt Hrun)
    as (ids & dtr & dva & dtf & tf & g & w4 & Hids & _ & Hs1 & Hs2 & Hs3 &
        Hinv & Hsub & Hloop).
  rewrite set_column_empty in Hsub.
  - destruct (for_each_turns _ _ _ _ _ _ _ _ _ _ _ _ _ _ _ _
                Hs1 Hs2 Hs3 Hinv Hsub Hloop) as (Htable & _ & _).
    by exists ids.
  - intros ->. apply nil_length_inv.
    symmetry. apply (rectangular_column dtest "序号" []); done.
Qed.

End LoopResults.

Lemma pipeline_scores_all_trees_witness :
  exists out w' dtf,
    Notebook.pipeline (rng := rotating) train_dataset test_dataset (world 0)
    = Ok (out, w') /\
    Notebook.time_feature_frame test_table None = Ok dtf /\
    Forall (Notebook.scored_on_all_trees dtf) (Notebook.iterations out).
Proof.
  assert (Hok : match Notebook.pipeline (rng := rotating) train_dataset
                        test_dataset (world 0) with
                | Ok _ => true
                | Raise _ => false
                end = true) by (vm_compute; reflexivity).
  destruct (Notebook.pipeline (rng := rotating) train_dataset test_dataset (world 0))
    as [[out w']|e] eqn:Hrun; [| discriminate Hok].
  destruct (pipeline_scores_all_trees (rng := rotating) (world 0) train_dataset
              test_dataset train_table test_table out w' eq_refl eq_refl Hrun)
    as (dtf & Hdtf & _ & Hits).
  exists out, w', dtf.
  split; [reflexivity |]. split; [exact Hdtf | exact Hits].
Defined.

Lemma pipeline_submit_table_witness :
  exists out w' d,
    Notebook.pipeline (rng := rotating) train_dataset test_dataset (world 0)
    = Ok (out, w') /\
    Pandas.heap w' !! Notebook.submit out = Some d /\
    Pandas.index d = Pandas.index test_table.
Proof.
  assert (Hok : match Notebook.pipeline (rng := rotating) train_dataset
                        test_dataset (world 0) with
                | Ok _ => true
                | Raise _ => false
                end = true) by (vm_compute; reflexivity).
  destruct (Notebook.pipeline (rng := rotating) train_dataset test_dataset (world 0))
    as [[out w']|e] eqn:Hrun; [| discriminate Hok].
  destruct (pipeline_submit_table (rng := rotating) (world 0) train_dataset
              test_dataset train_table test_table out w' eq_refl eq_refl
              ltac:(repeat constructor) Hrun)
    as (ids & _ & Hsub).
  exists out, w'. eexists.
  split; [reflexivity |]. split; [exact Hsub | reflexivity].
Defined.
